(** * news_aggregator.py: a shallow embedding and its specification

    The program fetches headlines over HTTP, asks an LLM for a digest, and
    writes the digest to a file.  Everything it does is sequential Python
    with exceptions and side effects, so the embedding is an exception
    monad over an event trace: every external action (HTTP request, LLM
    call, file write, sleep, log record, console line) appends one event,
    and the outcome of each external call is supplied by an environment
    that may look at the whole history so far.

    Scope of the model.  A Rocq string holds the UTF-8 encoding of a
    Python [str], a lone surrogate as the three bytes of its
    generalised encoding.  Logging always succeeds ([logging] handles
    the errors of its handlers itself); [print] always succeeds on
    ASCII text and otherwise meets what the environment decides.  The
    set-up at import time ([load_dotenv], [logging.basicConfig]) is
    left out.  The operator's interrupt is no outcome of a call: the
    environment places it either between the first run and the
    scheduler loop, where nothing catches it, or in one of the sleeps
    of the loop, where [main] handles it; an interrupt that cuts a run
    short is not described.  The internals of the [requests], [openai]
    and [schedule] libraries are the environment's: the program sees
    their results only. *)

From Stdlib Require Import List String Ascii ZArith QArith Bool Lia.
From Stdlib Require Import DecimalString DecimalNat.
Import ListNotations.

Set Warnings "-register-all".
Local Close Scope Q_scope.
Local Open Scope string_scope.

(** ** Python objects *)

(** The objects that [response.json()] can hand to the program: the
    image of a JSON document under [json.loads].  Finite floats are
    rationals.  A [dict] is the list of its items; lookup takes the
    first binding of a key. *)
Inductive pyobj : Type :=
| PNone : pyobj
| PBool : bool -> pyobj
| PInt : Z -> pyobj
| PFloat : Q -> pyobj
| PStr : string -> pyobj
| PList : list pyobj -> pyobj
| PDict : list (string * pyobj) -> pyobj.

(** [bool(o)]: Python's truth value testing. *)
Definition py_truthy (o : pyobj) : bool :=
  match o with
  | PNone => false
  | PBool b => b
  | PInt z => negb (Z.eqb z 0)
  | PFloat q => negb (Qeq_bool q 0%Q)
  | PStr s => negb (String.eqb s "")
  | PList l => match l with [] => false | _ => true end
  | PDict d => match d with [] => false | _ => true end
  end.

(** Truth value of an [os.getenv] result: [None] and [''] are falsy. *)
Definition env_truthy (v : option string) : bool :=
  match v with
  | None => false
  | Some s => negb (String.eqb s "")
  end.

(** ** Exceptions *)

(** The exception classes the program can meet.  [RequestException]
    stands for [requests.RequestException] and its subclasses;
    [OSError] for [OSError]/[IOError] and its built-in subclasses;
    [OtherException] for any other class, by its name.  What the calls
    of the environment raise are subclasses of [Exception]. *)
Inductive exn_class : Type :=
| KeyError
| TypeError
| AttributeError
| IndexError
| ValueError
| RequestException
| OSError
| OtherException (name : string).

Record exn : Type := mk_exn { exn_cls : exn_class; exn_str : string }.

(** [isinstance(e, requests.RequestException)]. *)
Definition is_RequestException (e : exn) : bool :=
  match exn_cls e with
  | RequestException => true
  | _ => false
  end.

(** [isinstance(e, IOError)]; [requests.RequestException] derives from
    [IOError]. *)
Definition is_IOError (e : exn) : bool :=
  match exn_cls e with
  | OSError | RequestException => true
  | _ => false
  end.

(** [isinstance(e, Exception)], for an exception raised by a call:
    every one is. *)
Definition is_Exception (e : exn) : bool := true.

(** The [KeyboardInterrupt] of the operator's Ctrl+C.  No call of the
    environment returns it; [main] raises it when the interrupt arrives
    outside its [try]. *)
Definition keyboard_interrupt : exn :=
  mk_exn (OtherException "KeyboardInterrupt") "".

Inductive result (A : Type) : Type :=
| Ok : A -> result A
| Raise : exn -> result A.
Arguments Ok {A} _.
Arguments Raise {A} _.

(** ** Dictionary and sequence primitives *)

Fixpoint assoc (k : string) (d : list (string * pyobj)) : option pyobj :=
  match d with
  | [] => None
  | (k', v) :: d' => if String.eqb k k' then Some v else assoc k d'
  end.

Definition squote : string := String "039"%char EmptyString.
Definition dquote : string := String "034"%char EmptyString.
Definition nl : string := String "010"%char EmptyString.

(** [o.get(k, default)]: only a dict has the method. *)
Definition py_get (o : pyobj) (k : string) (default : pyobj) : result pyobj :=
  match o with
  | PDict d => Ok (match assoc k d with Some v => v | None => default end)
  | _ => Raise (mk_exn AttributeError "object has no attribute 'get'")
  end.

(** [o[k]] for a string key [k]. *)
Definition py_getitem (o : pyobj) (k : string) : result pyobj :=
  match o with
  | PDict d =>
      match assoc k d with
      | Some v => Ok v
      | None => Raise (mk_exn KeyError (squote ++ k ++ squote))
      end
  | PStr _ => Raise (mk_exn TypeError "string indices must be integers")
  | PList _ => Raise (mk_exn TypeError "list indices must be integers or slices, not str")
  | _ => Raise (mk_exn TypeError "object is not subscriptable")
  end.

(** A continuation byte of UTF-8: [10xxxxxx]. *)
Definition is_continuation (c : ascii) : bool :=
  let n := nat_of_ascii c in Nat.leb 128 n && Nat.ltb n 192.

(** The characters of a [str], each as a [str] of its own: a byte and
    the continuation bytes that follow it. *)
Fixpoint chars (s : string) : list pyobj :=
  match s with
  | EmptyString => []
  | String c s' =>
      match s' with
      | String c' _ =>
          if is_continuation c'
          then match chars s' with
               | PStr h :: r => PStr (String c h) :: r
               | r => PStr (String c EmptyString) :: r
               end
          else PStr (String c EmptyString) :: chars s'
      | EmptyString => [PStr (String c EmptyString)]
      end
  end.

(** The items a [for] loop over [o] visits. *)
Definition py_iter (o : pyobj) : result (list pyobj) :=
  match o with
  | PList l => Ok l
  | PDict d => Ok (map (fun kv => PStr (fst kv)) d)
  | PStr s => Ok (chars s)
  | _ => Raise (mk_exn TypeError "object is not iterable")
  end.

(** [l[:n]] for an [int] [n]: a negative [n] counts from the end. *)
Definition slice_to {A : Type} (n : Z) (l : list A) : list A :=
  if (0 <=? n)%Z then firstn (Z.to_nat n) l
  else firstn (List.length l - Z.to_nat (- n)) l.

Definition str_of_nat (n : nat) : string :=
  NilZero.string_of_uint (Nat.to_uint n).

(** [enumerate(l, start)]. *)
Fixpoint enumerate {A : Type} (l : list A) (start : nat) : list (nat * A) :=
  match l with
  | [] => []
  | x :: l' => (start, x) :: enumerate l' (S start)
  end.

(** [sep.join(l)]. *)
Fixpoint join (sep : string) (l : list string) : string :=
  match l with
  | [] => ""
  | [x] => x
  | x :: l' => x ++ sep ++ join sep l'
  end.

(** [s * n]. *)
Fixpoint repeat_str (s : string) (n : nat) : string :=
  match n with
  | O => ""
  | S n' => s ++ repeat_str s n'
  end.

(** ** Dates *)

Inductive month : Type :=
| January | February | March | April | May | June
| July | August | September | October | November | December.

Record datetime : Type := mk_datetime {
  dt_year : nat; dt_month : month; dt_day : nat;
  dt_hour : nat; dt_minute : nat; dt_second : nat
}.

Definition month_name (m : month) : string :=
  match m with
  | January => "January" | February => "February" | March => "March"
  | April => "April" | May => "May" | June => "June"
  | July => "July" | August => "August" | September => "September"
  | October => "October" | November => "November" | December => "December"
  end.

Definition month_number (m : month) : nat :=
  match m with
  | January => 1 | February => 2 | March => 3
  | April => 4 | May => 5 | June => 6
  | July => 7 | August => 8 | September => 9
  | October => 10 | November => 11 | December => 12
  end.

(** Two-digit, zero-padded field of [strftime]. *)
Definition pad2 (n : nat) : string :=
  if Nat.ltb n 10 then "0" ++ str_of_nat n else str_of_nat n.

(** [d.strftime("%B %d, %Y")] in the default C locale, for the
    four-digit years [datetime.now()] returns. *)
Definition strftime_long (d : datetime) : string :=
  month_name (dt_month d) ++ " " ++ pad2 (dt_day d) ++ ", "
  ++ str_of_nat (dt_year d).

(** [d.strftime("%Y%m%d_%H%M%S")]. *)
Definition strftime_stamp (d : datetime) : string :=
  str_of_nat (dt_year d) ++ pad2 (month_number (dt_month d))
  ++ pad2 (dt_day d) ++ "_" ++ pad2 (dt_hour d) ++ pad2 (dt_minute d)
  ++ pad2 (dt_second d).

(** The string of the bytes [l]. *)
Fixpoint bytes (l : list nat) : string :=
  match l with
  | [] => EmptyString
  | n :: l' => String (ascii_of_nat n) (bytes l')
  end.

(** The characters for which [str.isspace] holds, in UTF-8: U+0009 to
    U+000D, U+001C to U+0020, U+0085, U+00A0, U+1680, U+2000 to U+200A,
    U+2028, U+2029, U+202F, U+205F and U+3000. *)
Definition whitespace : list string :=
  map bytes
    [[9]; [10]; [11]; [12]; [13]; [28]; [29]; [30]; [31]; [32];
     [194; 133]; [194; 160]; [225; 154; 128];
     [226; 128; 128]; [226; 128; 129]; [226; 128; 130]; [226; 128; 131];
     [226; 128; 132]; [226; 128; 133]; [226; 128; 134]; [226; 128; 135];
     [226; 128; 136]; [226; 128; 137]; [226; 128; 138];
     [226; 128; 168]; [226; 128; 169]; [226; 128; 175];
     [226; 129; 159]; [227; 128; 128]].

(** [s] without its prefix [p], when it has it. *)
Fixpoint drop_prefix (p s : string) : option string :=
  match p with
  | EmptyString => Some s
  | String a p' =>
      match s with
      | String b s' => if Ascii.eqb a b then drop_prefix p' s' else None
      | EmptyString => None
      end
  end.

(** [s] without the first of the strings of [l] that it starts with. *)
Fixpoint drop_one (l : list string) (s : string) : option string :=
  match l with
  | [] => None
  | p :: l' =>
      match drop_prefix p s with
      | Some r => Some r
      | None => drop_one l' s
      end
  end.

(** [s] with the strings of [l] removed from its start, as long as one
    is found: no more than [n] times. *)
Fixpoint drop_all (l : list string) (n : nat) (s : string) : string :=
  match n with
  | O => s
  | S n' =>
      match drop_one l s with
      | Some r => drop_all l n' r
      | None => s
      end
  end.

Fixpoint string_rev (s : string) : string :=
  match s with
  | EmptyString => EmptyString
  | String c s' => string_rev s' ++ String c EmptyString
  end.

(** [s.lstrip()] *)
Definition lstrip (s : string) : string :=
  drop_all whitespace (String.length s) s.

(** [s.rstrip()] *)
Definition rstrip (s : string) : string :=
  string_rev (drop_all (map string_rev whitespace) (String.length s)
                (string_rev s)).

(** [s.strip()] *)
Definition strip (s : string) : string := rstrip (lstrip s).

(** Text that every console encoding can take. *)
Fixpoint is_ascii (s : string) : bool :=
  match s with
  | EmptyString => true
  | String c s' => Nat.ltb (nat_of_ascii c) 128 && is_ascii s'
  end.

(** ** The outside world *)

Inductive log_level : Type := INFO | WARNING | ERROR.

(** [requests.get(url, params=params, timeout=timeout)]. *)
Record http_request : Type := mk_http_request {
  req_url : string;
  req_apiKey : string;
  req_category : string;
  req_language : string;
  req_pageSize : Z;
  req_timeout : nat
}.

(** [client.chat.completions.create(...)]: a system and a user message. *)
Record chat_request : Type := mk_chat_request {
  chat_model : string;
  chat_system : string;
  chat_user : string;
  chat_max_tokens : nat;
  chat_temperature : Q
}.

Inductive event : Type :=
| EvLog (level : log_level) (msg : string)
| EvPrint (text : string)
| EvHttpGet (r : http_request)
| EvSleep (seconds : Q)
| EvChat (r : chat_request)
| EvWrite (filename : string) (content : string)
| EvSchedule (hours : nat)
| EvRunPending.

Definition trace : Type := list event.

(** What the program sees of a [requests.Response]: the status code and
    what [response.json()] does. *)
Record response : Type := mk_response {
  status_code : nat;
  json : result pyobj
}.

(** Where the operator's interrupt arrives: after the first run and
    before the loop of [main] is entered, or in the sleep of the loop
    that follows [n] completed ones. *)
Inductive interrupt_point : Type :=
| BeforeLoop
| InSleep (n : nat).

(** The environment decides every external outcome, possibly from the
    history of events so far. *)
Record env : Type := mk_env {
  getenv_NEWS_API_KEY : option string;
  getenv_OPENAI_API_KEY : option string;
  (** [datetime.now()] *)
  now : trace -> datetime;
  (** [requests.get]: an exception or a response *)
  requests_get : trace -> http_request -> result response;
  (** [chat.completions.create]: an exception, or the
      [message.content] of each element of [response.choices] *)
  chat_create : trace -> chat_request -> result (list (option string));
  (** [open(filename, 'w', encoding='utf-8')] followed by [f.write] *)
  file_write : trace -> string -> string -> result unit;
  (** whether [schedule.run_pending()] finds the job due *)
  job_due : trace -> bool;
  (** [print(s)] for a text [s] that is not ASCII: done, or the
      [UnicodeEncodeError] of the console encoding *)
  console_write : trace -> string -> result unit;
  (** where the operator's Ctrl+C arrives *)
  interrupt : interrupt_point
}.

(** ** The monad: exceptions over an event trace *)

Definition M (A : Type) : Type := trace -> result A * trace.

Definition ret {A : Type} (a : A) : M A := fun t => (Ok a, t).

Definition bind {A B : Type} (m : M A) (k : A -> M B) : M B :=
  fun t =>
    match m t with
    | (Ok a, t') => k a t'
    | (Raise e, t') => (Raise e, t')
    end.

Definition raise {A : Type} (e : exn) : M A := fun t => (Raise e, t).

Definition lift {A : Type} (r : result A) : M A := fun t => (r, t).

Definition emit (ev : event) : M unit := fun t => (Ok tt, (t ++ [ev])%list).

(** [try: m  except C as e: h e], where [catches] decides
    [isinstance(e, C)]. *)
Definition try_except {A : Type} (m : M A) (catches : exn -> bool)
    (h : exn -> M A) : M A :=
  fun t =>
    match m t with
    | (Ok a, t') => (Ok a, t')
    | (Raise e, t') => if catches e then h e t' else (Raise e, t')
    end.

Notation "x <- c ;; k" := (bind c (fun x => k))
  (at level 61, c at next level, right associativity).
Notation "c ;; k" := (bind c (fun _ => k))
  (at level 61, right associativity).

Definition rbind {A B : Type} (r : result A) (k : A -> result B) : result B :=
  match r with
  | Ok a => k a
  | Raise e => Raise e
  end.

Notation "'let?' x ':=' r 'in' k" := (rbind r (fun x => k))
  (at level 10, x name, r at level 100, k at level 200).

(** ** The program *)

(** The dataclass.  Its annotations are not enforced: a field holds
    whatever object the constructor was given. *)
Record NewsArticle : Type := mk_NewsArticle {
  title : pyobj;
  description : pyobj;
  url : pyobj;
  published_at : pyobj;
  source : pyobj
}.

Record NewsAggregator : Type := mk_NewsAggregator {
  news_api_key : option string;
  openai_api_key : option string;
  client : string;
  news_base_url : string;
  categories : list string
}.

(** [NewsAggregator._get_mock_articles] *)
Definition _get_mock_articles : list NewsArticle :=
  [ {| title := PStr "Tech Giants Report Strong Q3 Earnings";
       description := PStr "Major technology companies exceeded expectations in their quarterly reports.";
       url := PStr "https://example.com/tech-earnings";
       published_at := PStr "2024-01-15T10:00:00Z";
       source := PStr "TechNews" |};
    {| title := PStr "Global Markets Show Positive Momentum";
       description := PStr "Stock markets worldwide continue upward trend amid economic recovery.";
       url := PStr "https://example.com/markets";
       published_at := PStr "2024-01-15T09:30:00Z";
       source := PStr "FinanceDaily" |} ].

(** [response.raise_for_status()]: an [HTTPError], which is a
    [RequestException], for a 4xx or 5xx status. *)
Definition raise_for_status (r : response) : result unit :=
  if Nat.leb 400 (status_code r) && Nat.ltb (status_code r) 600
  then Raise (mk_exn RequestException "HTTPError")
  else Ok tt.

(** The [NewsArticle(...)] call of the loop body: the keyword arguments
    are evaluated left to right. *)
Definition make_article (article : pyobj) : result NewsArticle :=
  let? t := py_getitem article "title" in
  let? d := py_getitem article "description" in
  let? u := py_getitem article "url" in
  let? p := py_getitem article "publishedAt" in
  let? s := py_getitem article "source" in
  let? n := py_getitem s "name" in
  Ok {| title := t; description := d; url := u; published_at := p;
        source := n |}.

(** [article.get('title') and article.get('description')], as a truth
    value. *)
Definition has_title_and_description (article : pyobj) : result bool :=
  let? t := py_get article "title" PNone in
  if py_truthy t
  then let? d := py_get article "description" PNone in Ok (py_truthy d)
  else Ok false.

(** The inner loop: [for article in ...: if ...: articles.append(...)]. *)
Fixpoint collect (items : list pyobj) (articles : list NewsArticle)
    : result (list NewsArticle) :=
  match items with
  | [] => Ok articles
  | article :: rest =>
      let? keep := has_title_and_description article in
      if keep
      then let? a := make_article article in collect rest (articles ++ [a])%list
      else collect rest articles
  end.

Section Program.

(** [str(o)] of an object that is not a [str] (its [repr]) is a
    parameter of the development. *)
Variable py_repr : pyobj -> string.
Variable E : env.

(** What an f-string field [{o}] expands to. *)
Definition py_str (o : pyobj) : string :=
  match o with
  | PStr s => s
  | _ => py_repr o
  end.

Definition get_now : M datetime := fun t => (Ok (now E t), t).

Definition http_get (r : http_request) : M response :=
  fun t => (requests_get E t r, (t ++ [EvHttpGet r])%list).

Definition chat (r : chat_request) : M (list (option string)) :=
  fun t => (chat_create E t r, (t ++ [EvChat r])%list).

(** [print(s)]: ASCII text always goes through. *)
Definition print (s : string) : M unit :=
  fun t => (if is_ascii s then Ok tt else console_write E t s,
            (t ++ [EvPrint s])%list).

Definition write_file (filename content : string) : M unit :=
  fun t => (file_write E t filename content,
            (t ++ [EvWrite filename content])%list).

(** [NewsAggregator.__init__] *)
Definition NewsAggregator_init : M NewsAggregator :=
  let news := getenv_NEWS_API_KEY E in
  let openai := getenv_OPENAI_API_KEY E in
  (if negb (env_truthy news)
   then emit (EvLog WARNING "NEWS_API_KEY not found. Using mock data mode.")
   else ret tt) ;;
  match openai with
  | Some k =>
      if String.eqb k ""
      then raise (mk_exn ValueError "OPENAI_API_KEY environment variable is required")
      else ret {| news_api_key := news;
                  openai_api_key := openai;
                  client := k;
                  news_base_url := "https://newsapi.org/v2";
                  categories := ["business"; "technology"; "consumer goods"] |}
  | None =>
      raise (mk_exn ValueError "OPENAI_API_KEY environment variable is required")
  end.

(** The request of one category: [pageSize] is
    [limit // len(self.categories)]. *)
Definition category_request (self : NewsAggregator) (key : string)
    (limit : Z) (category : string) : http_request :=
  {| req_url := news_base_url self ++ "/top-headlines";
     req_apiKey := key;
     req_category := category;
     req_language := "en";
     req_pageSize := (limit / Z.of_nat (List.length (categories self)))%Z;
     req_timeout := 10 |}.

(** One turn of [for category in self.categories]. *)
Definition fetch_category (self : NewsAggregator) (key : string) (limit : Z)
    (category : string) (articles : list NewsArticle)
    : M (list NewsArticle) :=
  resp <- http_get (category_request self key limit category) ;;
  lift (raise_for_status resp) ;;
  data <- lift (json resp) ;;
  arts <- lift (py_get data "articles" (PList [])) ;;
  items <- lift (py_iter arts) ;;
  articles' <- lift (collect items articles) ;;
  emit (EvSleep (1 # 10)%Q) ;;
  ret articles'.

Fixpoint fetch_categories (self : NewsAggregator) (key : string) (limit : Z)
    (cats : list string) (articles : list NewsArticle)
    : M (list NewsArticle) :=
  match cats with
  | [] => ret articles
  | category :: rest =>
      articles' <- fetch_category self key limit category articles ;;
      fetch_categories self key limit rest articles'
  end.

(** [NewsAggregator.fetch_news_articles] *)
Definition fetch_news_articles (self : NewsAggregator) (limit : Z)
    : M (list NewsArticle) :=
  match news_api_key self with
  | None => ret _get_mock_articles
  | Some key =>
      if String.eqb key "" then ret _get_mock_articles
      else
        try_except
          (articles <- fetch_categories self key limit (categories self) [] ;;
           ret (slice_to limit articles))
          is_RequestException
          (fun e =>
             emit (EvLog ERROR ("Error fetching news: " ++ exn_str e)) ;;
             ret _get_mock_articles)
  end.

(** One element of the list joined into [articles_text]. *)
Definition article_text (a : NewsArticle) : string :=
  "Title: " ++ py_str (title a) ++ nl
  ++ "Description: " ++ py_str (description a) ++ nl
  ++ "Source: " ++ py_str (source a) ++ nl
  ++ "Published: " ++ py_str (published_at a).

Definition indent : string := "        ".

(** The f-string [prompt]. *)
Definition prompt_text (articles_text date : string) : string :=
  nl
  ++ indent ++ "Based on the following news articles, create a concise "
     ++ dquote ++ "Top 10 News" ++ dquote ++ " summary. " ++ nl
  ++ indent ++ "Select the 10 most important and diverse stories, and present them in a clear, " ++ nl
  ++ indent ++ "numbered format with brief descriptions." ++ nl
  ++ indent ++ nl
  ++ indent ++ "News Articles:" ++ nl
  ++ indent ++ articles_text ++ nl
  ++ indent ++ nl
  ++ indent ++ "Format your response as:" ++ nl
  ++ indent ++ "TOP 10 NEWS - " ++ date ++ nl
  ++ indent ++ nl
  ++ indent ++ "1. [Brief headline] - [Concise summary in 1-2 sentences]" ++ nl
  ++ indent ++ "2. [Brief headline] - [Concise summary in 1-2 sentences]" ++ nl
  ++ indent ++ "...and so on" ++ nl
  ++ indent ++ nl
  ++ indent ++ "Focus on the most newsworthy and impactful stories." ++ nl
  ++ indent.

(** One turn of the loop of [_generate_fallback_summary]. *)
Definition fallback_entry (ia : nat * NewsArticle) : string :=
  str_of_nat (fst ia) ++ ". " ++ py_str (title (snd ia)) ++ nl
  ++ "   " ++ py_str (description (snd ia)) ++ nl
  ++ "   Source: " ++ py_str (source (snd ia)) ++ nl ++ nl.

(** [NewsAggregator._generate_fallback_summary] *)
Definition _generate_fallback_summary (articles : list NewsArticle)
    : M string :=
  d <- get_now ;;
  ret (fold_left (fun summary ia => summary ++ fallback_entry ia)
         (enumerate (slice_to 10 articles) 1)
         ("TOP 10 NEWS - " ++ strftime_long d ++ nl ++ nl)).

(** [response.choices[0].message.content.strip()] *)
Definition first_content (choices : list (option string)) : result string :=
  match choices with
  | [] => Raise (mk_exn IndexError "list index out of range")
  | None :: _ =>
      Raise (mk_exn AttributeError "'NoneType' object has no attribute 'strip'")
  | Some s :: _ => Ok (strip s)
  end.

Definition summary_request (prompt : string) : chat_request :=
  {| chat_model := "gpt-3.5-turbo";
     chat_system := "You are a professional news editor who creates concise, informative news summaries.";
     chat_user := prompt;
     chat_max_tokens := 1500;
     chat_temperature := (7 # 10)%Q |}.

(** [NewsAggregator.generate_news_summary] *)
Definition generate_news_summary (articles : list NewsArticle) : M string :=
  match articles with
  | [] => ret "No news articles available at this time."
  | _ =>
      let articles_text := join (nl ++ nl) (map article_text articles) in
      d <- get_now ;;
      let prompt := prompt_text articles_text (strftime_long d) in
      try_except
        (choices <- chat (summary_request prompt) ;;
         lift (first_content choices))
        is_Exception
        (fun e =>
           emit (EvLog ERROR
                   ("Error generating summary with OpenAI: " ++ exn_str e)) ;;
           _generate_fallback_summary articles)
  end.

(** [NewsAggregator.save_summary] *)
Definition save_summary (summary : string) : M unit :=
  d <- get_now ;;
  let filename := "news_summary_" ++ strftime_stamp d ++ ".txt" in
  try_except
    (write_file filename summary ;;
     emit (EvLog INFO ("Summary saved to " ++ filename)))
    is_IOError
    (fun e => emit (EvLog ERROR ("Error saving summary: " ++ exn_str e))).

(** [NewsAggregator.run_news_update]; the call of [fetch_news_articles]
    takes the default [limit] of 20. *)
Definition run_news_update (self : NewsAggregator) : M unit :=
  emit (EvLog INFO "Starting news update...") ;;
  articles <- fetch_news_articles self 20 ;;
  emit (EvLog INFO
          ("Fetched " ++ str_of_nat (List.length articles) ++ " articles")) ;;
  summary <- generate_news_summary articles ;;
  print (nl ++ repeat_str "=" 60) ;;
  print summary ;;
  print (repeat_str "=" 60 ++ nl) ;;
  save_summary summary ;;
  emit (EvLog INFO "News update completed").

(** [schedule.run_pending()]: runs the one registered job when it is
    due; the job's exceptions pass through. *)
Definition run_pending (self : NewsAggregator) : M unit :=
  fun t =>
    if job_due E t
    then run_news_update self (t ++ [EvRunPending])%list
    else (Ok tt, (t ++ [EvRunPending])%list).

(** The [try] of [main]: the [while True] loop up to the operator's
    interrupt, which arrives in the sleep that follows [n] completed
    ones, and the [except KeyboardInterrupt] handler. *)
Fixpoint main_loop (self : NewsAggregator) (n : nat) : M unit :=
  run_pending self ;;
  emit (EvSleep 60%Q) ;;
  match n with
  | O =>
      print (nl ++ "News Aggregator stopped.") ;;
      emit (EvLog INFO "News Aggregator stopped by user")
  | S n' => main_loop self n'
  end.

(** [main] *)
Definition main : M unit :=
  if negb (env_truthy (getenv_OPENAI_API_KEY E))
  then
    print "Error: Please set your OPENAI_API_KEY environment variable" ;;
    print "You can get an API key from: https://openai.com/"
  else
    aggregator <- NewsAggregator_init ;;
    emit (EvSchedule 12) ;;
    print "News Aggregator Starting..." ;;
    print "Scheduling news updates every 4 hours" ;;
    print "Press Ctrl+C to stop" ;;
    run_news_update aggregator ;;
    match interrupt E with
    | BeforeLoop => raise keyboard_interrupt
    | InSleep n => main_loop aggregator n
    end.

End Program.

(** * Specification *)

(** ** Traces *)

(** Concatenation of traces and of lists, next to [++] on strings. *)
Notation "t +++ u" := (@app _ t u) (at level 60, right associativity).

(** The pipeline runs recorded in a trace: each starts with the same
    log record. *)
Fixpoint pipeline_runs (t : trace) : nat :=
  match t with
  | [] => 0
  | EvLog INFO msg :: t' =>
      (if String.eqb msg "Starting news update..." then 1 else 0)
      + pipeline_runs t'
  | _ :: t' => pipeline_runs t'
  end.

(** The requests of a trace, in order. *)
Fixpoint http_requests (t : trace) : list http_request :=
  match t with
  | [] => []
  | EvHttpGet r :: t' => r :: http_requests t'
  | _ :: t' => http_requests t'
  end.

(** The LLM calls of a trace, in order. *)
Fixpoint chat_requests (t : trace) : list chat_request :=
  match t with
  | [] => []
  | EvChat r :: t' => r :: chat_requests t'
  | _ :: t' => chat_requests t'
  end.

(** ** Names for what the program writes *)

(** The file [save_summary] opens when the trace so far is [t]. *)
Definition summary_filename (E : env) (t : trace) : string :=
  "news_summary_" ++ strftime_stamp (now E t) ++ ".txt".

(** The two lines [main] prints when the LLM credential is missing. *)
Definition missing_key_messages : trace :=
  [EvPrint "Error: Please set your OPENAI_API_KEY environment variable";
   EvPrint "You can get an API key from: https://openai.com/"].

(** The request [generate_news_summary] sends for [articles] when the
    trace so far is [t]. *)
Definition llm_request (py_repr : pyobj -> string) (E : env)
    (articles : list NewsArticle) (t : trace) : chat_request :=
  summary_request
    (prompt_text (join (nl ++ nl) (map (article_text py_repr) articles))
       (strftime_long (now E t))).


(** The text of the fallback summary for the date [d]. *)
Definition fallback_text (py_repr : pyobj -> string) (d : datetime)
    (articles : list NewsArticle) : string :=
  "TOP 10 NEWS - " ++ strftime_long d ++ nl ++ nl
  ++ String.concat "" (map (fallback_entry py_repr)
                         (enumerate (firstn 10 articles) 1)).

(** ** Response bodies *)

(** [o.get(k)] on a dict, as a total function. *)
Definition field (d : list (string * pyobj)) (k : string) : pyobj :=
  match assoc k d with
  | Some v => v
  | None => PNone
  end.

(** An entry that has both a title and a description: an object whose
    two fields are present and truthy (so neither null nor empty). *)
Definition both_present (article : pyobj) : bool :=
  match article with
  | PDict d => py_truthy (field d "title") && py_truthy (field d "description")
  | _ => false
  end.

(** The keys the constructor call reads besides the two it has tested. *)
Definition has_other_keys (d : list (string * pyobj)) : bool :=
  match assoc "url" d, assoc "publishedAt" d, assoc "source" d with
  | Some _, Some _, Some (PDict s) =>
      match assoc "name" s with Some _ => true | None => false end
  | _, _, _ => false
  end.

(** An entry the loop body handles without raising: an object which,
    when it has a title and a description, also has [url],
    [publishedAt] and [source.name]. *)
Definition entry_well_formed (article : pyobj) : bool :=
  match article with
  | PDict d => if both_present article then has_other_keys d else true
  | _ => false
  end.

(** The article built from a well-formed entry. *)
Definition article_of (article : pyobj) : NewsArticle :=
  match article with
  | PDict d =>
      {| title := field d "title";
         description := field d "description";
         url := field d "url";
         published_at := field d "publishedAt";
         source := match field d "source" with
                   | PDict s => field s "name"
                   | _ => PNone
                   end |}
  | _ => mk_NewsArticle PNone PNone PNone PNone PNone
  end.

(** The entries of a response body: what [data.get('articles', [])]
    iterates over. *)
Definition entries (data : pyobj) : list pyobj :=
  match data with
  | PDict d =>
      match assoc "articles" d with
      | Some arts => match py_iter arts with Ok l => l | Raise _ => [] end
      | None => []
      end
  | _ => []
  end.

(** A body the loop can walk: an object whose [articles], when present,
    is iterable, and holds well-formed entries only. *)
Definition body_well_formed (data : pyobj) : bool :=
  match data with
  | PDict d =>
      match assoc "articles" d with
      | Some arts =>
          match py_iter arts with
          | Ok l => forallb entry_well_formed l
          | Raise _ => false
          end
      | None => true
      end
  | _ => false
  end.

(** The articles the loop keeps from a body. *)
Definition kept_articles (data : pyobj) : list NewsArticle :=
  map article_of (filter both_present (entries data)).

(** ** Outcomes of a request *)

(** The events of a fetch in which every request succeeds. *)
Definition fetch_events (self : NewsAggregator) (key : string) (limit : Z)
    (cats : list string) : trace :=
  flat_map (fun c => [EvHttpGet (category_request self key limit c);
                      EvSleep (1 # 10)%Q]) cats.

(** A request answered by a response that passes [raise_for_status] and
    decodes to a well-formed body, from which the loop keeps [kept]. *)
Definition good_response (o : result response) (kept : list NewsArticle)
    : Prop :=
  exists resp data,
    o = Ok resp /\ raise_for_status resp = Ok tt /\ json resp = Ok data
    /\ body_well_formed data = true /\ kept_articles data = kept.

(** An outcome of [requests.get] that the fetch copes with: a
    [RequestException] from the call, from [raise_for_status] or from
    [json()], or a well-formed body. *)
Definition http_handled (o : result response) : bool :=
  match o with
  | Raise e => is_RequestException e
  | Ok resp =>
      match raise_for_status resp with
      | Raise _ => true
      | Ok _ =>
          match json resp with
          | Raise e => is_RequestException e
          | Ok data => body_well_formed data
          end
      end
  end.

(** An outcome in which no [RequestException] is raised. *)
Definition no_request_exception (o : result response) : bool :=
  match o with
  | Raise e => negb (is_RequestException e)
  | Ok resp =>
      match raise_for_status resp with
      | Raise _ => false
      | Ok _ =>
          match json resp with
          | Raise e => negb (is_RequestException e)
          | Ok _ => true
          end
      end
  end.

(** What is left of a result for the caller of a [try] that catches
    the exceptions satisfying [catches]. *)
Definition only_raises {A : Type} (catches : exn -> bool) (r : result A)
    : Prop :=
  match r with
  | Ok _ => True
  | Raise e => catches e = true
  end.

(** The body of the [try] block of [fetch_news_articles]. *)
Definition fetch_live (E : env) (self : NewsAggregator) (key : string)
    (limit : Z) : M (list NewsArticle) :=
  articles <- fetch_categories E self key limit (categories self) [] ;;
  ret (slice_to limit articles).

(** The complete entries of the body of each category's response,
    category after category, in upstream order. *)
Definition complete_articles (self : NewsAggregator) (key : string)
    (limit : Z) (body : http_request -> pyobj) : list NewsArticle :=
  flat_map
    (fun c =>
       map article_of
         (filter both_present (entries (body (category_request self key limit c)))))
    (categories self).

(** A body all of whose entries are objects lacking a title or a
    description. *)
Definition all_lacking (data : pyobj) : bool :=
  match data with
  | PDict d =>
      match assoc "articles" d with
      | Some arts =>
          match py_iter arts with
          | Ok l =>
              forallb (fun a => match a with
                                | PDict _ => negb (both_present a)
                                | _ => false
                                end) l
          | Raise _ => false
          end
      | None => true
      end
  | _ => false
  end.

(** What [print(s)] comes to when the trace so far is [t]. *)
Definition print_outcome (E : env) (t : trace) (s : string) : result unit :=
  if is_ascii s then Ok tt else console_write E t s.

(** The two rules [run_news_update] prints around the summary. *)
Definition rule_above : string := nl ++ repeat_str "=" 60.
Definition rule_below : string := repeat_str "=" 60 ++ nl.

(** The records of the three stages of a run. *)
Definition run_started : trace := [EvLog INFO "Starting news update..."].

Definition run_fetched (articles : list NewsArticle) : trace :=
  [EvLog INFO ("Fetched " ++ str_of_nat (List.length articles) ++ " articles")].

Definition run_printed (summary : string) : trace :=
  [EvPrint (nl ++ repeat_str "=" 60); EvPrint summary;
   EvPrint (repeat_str "=" 60 ++ nl)].

(** ** Sample configurations *)

Module Sample.

Definition clock (_ : trace) : datetime := mk_datetime 2024 January 15 10 0 0.

Definition repr (_ : pyobj) : string := "None".

Definition auth_error : exn :=
  mk_exn (OtherException "AuthenticationError") "Incorrect API key provided".

(** An environment whose answers do not depend on the history: the LLM
    call is refused, the file write meets [write], the console takes
    every text and the interrupt arrives in the first sleep of the
    loop. *)
Definition world (news openai : option string)
    (get : http_request -> result response) (write : result unit) : env :=
  {| getenv_NEWS_API_KEY := news;
     getenv_OPENAI_API_KEY := openai;
     now := clock;
     requests_get := fun _ r => get r;
     chat_create := fun _ _ => Raise auth_error;
     file_write := fun _ _ _ => write;
     job_due := fun _ => false;
     console_write := fun _ _ => Ok tt;
     interrupt := InSleep 0 |}.

(** The aggregator [__init__] builds for the credential [news]. *)
Definition aggregator (news : option string) : NewsAggregator :=
  {| news_api_key := news;
     openai_api_key := Some "sk-test";
     client := "sk-test";
     news_base_url := "https://newsapi.org/v2";
     categories := ["business"; "technology"; "consumer goods"] |}.

Definition complete_entry (headline : string) : pyobj :=
  PDict [("source", PDict [("id", PNone); ("name", PStr "Wire")]);
         ("title", PStr headline);
         ("description", PStr "What happened.");
         ("url", PStr "https://example.com/a");
         ("publishedAt", PStr "2024-01-15T10:00:00Z")].

(** An entry with a title and a description and nothing else. *)
Definition bare_entry : pyobj :=
  PDict [("title", PStr "Headline"); ("description", PStr "What happened.")].

(** An entry whose description is null. *)
Definition blank_entry : pyobj :=
  PDict [("source", PDict [("id", PNone); ("name", PStr "Wire")]);
         ("title", PStr "Headline");
         ("description", PNone);
         ("url", PStr "https://example.com/a");
         ("publishedAt", PStr "2024-01-15T10:00:00Z")].

(** The article the loop builds from [complete_entry headline]. *)
Definition article_of_entry (headline : string) : NewsArticle :=
  {| title := PStr headline;
     description := PStr "What happened.";
     url := PStr "https://example.com/a";
     published_at := PStr "2024-01-15T10:00:00Z";
     source := PStr "Wire" |}.

Definition body_of (items : list pyobj) : pyobj :=
  PDict [("status", PStr "ok"); ("articles", PList items)].

Definition answer (items : list pyobj) (_ : http_request) : result response :=
  Ok (mk_response 200 (Ok (body_of items))).

Definition timeout (_ : http_request) : result response :=
  Raise (mk_exn RequestException "Read timed out.").

(** Every request is answered with the same two complete entries. *)
Definition two_stories : env :=
  world (Some "key") (Some "sk-test")
    (answer [complete_entry "A"; complete_entry "B"]) (Ok tt).

(** Every request is answered with one entry that has no [url]. *)
Definition bare_story : env :=
  world (Some "key") (Some "sk-test") (answer [bare_entry]) (Ok tt).

(** Every request is answered with one entry without a description. *)
Definition blank_story : env :=
  world (Some "key") (Some "sk-test") (answer [blank_entry]) (Ok tt).

(** No credential for the news source. *)
Definition offline : env :=
  world None (Some "sk-test") timeout (Ok tt).

(** A credential, and every request times out. *)
Definition unreachable : env :=
  world (Some "key") (Some "sk-test") timeout (Ok tt).

(** As [unreachable], and the file cannot be written. *)
Definition disk_full : env :=
  world (Some "key") (Some "sk-test") timeout
    (Raise (mk_exn OSError "[Errno 28] No space left on device")).

(** No credential for the LLM. *)
Definition unconfigured : env :=
  world (Some "key") None timeout (Ok tt).

(** Offline, and the text cannot be encoded for the file. *)
Definition unencodable : env :=
  world None (Some "sk-test") timeout
    (Raise (mk_exn ValueError "surrogates not allowed")).

(** Offline, the job due at every poll, the interrupt after two
    sleeps. *)
Definition busy : env :=
  {| getenv_NEWS_API_KEY := None;
     getenv_OPENAI_API_KEY := Some "sk-test";
     now := clock;
     requests_get := fun _ => timeout;
     chat_create := fun _ _ => Raise auth_error;
     file_write := fun _ _ _ => Ok tt;
     job_due := fun _ => true;
     console_write := fun _ _ => Ok tt;
     interrupt := InSleep 2 |}.

(** Every response carries [articles: null]. *)
Definition null_articles : env :=
  world (Some "key") (Some "sk-test")
    (fun _ => Ok (mk_response 200
                    (Ok (PDict [("status", PStr "error");
                                ("articles", PNone)]))))
    (Ok tt).

(** Offline; the LLM answers with two choices, the first a text with a
    no-break space before it, an em space and a line feed after it. *)
Definition talkative : env :=
  {| getenv_NEWS_API_KEY := None;
     getenv_OPENAI_API_KEY := Some "sk-test";
     now := clock;
     requests_get := fun _ => timeout;
     chat_create :=
       fun _ _ => Ok [Some (bytes [194; 160] ++ " TOP 10 NEWS"
                            ++ bytes [226; 128; 131] ++ nl);
                      None];
     file_write := fun _ _ _ => Ok tt;
     job_due := fun _ => false;
     console_write := fun _ _ => Ok tt;
     interrupt := InSleep 0 |}.

(** Offline, and the operator interrupts before the loop is entered. *)
Definition impatient : env :=
  {| getenv_NEWS_API_KEY := None;
     getenv_OPENAI_API_KEY := Some "sk-test";
     now := clock;
     requests_get := fun _ => timeout;
     chat_create := fun _ _ => Raise auth_error;
     file_write := fun _ _ _ => Ok tt;
     job_due := fun _ => false;
     console_write := fun _ _ => Ok tt;
     interrupt := BeforeLoop |}.


(** A lone surrogate, U+D800, as a string holds it. *)
Definition lone_surrogate : string := bytes [237; 160; 128].

(** Whether a text holds a surrogate: the byte 237 followed by a byte
    from 160 to 191. *)
Fixpoint has_surrogate (s : string) : bool :=
  match s with
  | EmptyString => false
  | String c s' =>
      match s' with
      | String c' _ =>
          (Nat.eqb (nat_of_ascii c) 237 && Nat.leb 160 (nat_of_ascii c')
           && Nat.leb (nat_of_ascii c') 191)
          || has_surrogate s'
      | EmptyString => false
      end
  end.

(** The [UnicodeEncodeError], a [ValueError], of a UTF-8 codec. *)
Definition encode_error : exn :=
  mk_exn ValueError "'utf-8' codec can't encode character: surrogates not allowed".

(** What a UTF-8 console or file does with a text. *)
Definition utf8_sink (s : string) : result unit :=
  if has_surrogate s then Raise encode_error else Ok tt.

Definition surrogate_headline : string := "Caf" ++ lone_surrogate.

(** Every request is answered with one complete entry whose title
    holds a lone surrogate, the LLM call is refused, and console and
    file are UTF-8. *)
Definition surrogate_story : env :=
  {| getenv_NEWS_API_KEY := Some "key";
     getenv_OPENAI_API_KEY := Some "sk-test";
     now := clock;
     requests_get := fun _ => answer [complete_entry surrogate_headline];
     chat_create := fun _ _ => Raise auth_error;
     file_write := fun _ _ content => utf8_sink content;
     job_due := fun _ => false;
     console_write := fun _ s => utf8_sink s;
     interrupt := InSleep 0 |}.

(** The business request is answered with one complete entry; every
    other request meets [other]. *)
Definition business_only (other : result response) (r : http_request)
    : result response :=
  if String.eqb (req_category r) "business"
  then answer [complete_entry "A"] r
  else other.

(** Business is answered, technology times out. *)
Definition half_reachable : env :=
  world (Some "key") (Some "sk-test")
    (business_only (Raise (mk_exn RequestException "Read timed out.")))
    (Ok tt).

(** Business is answered, the body of technology is not JSON and the
    decoder raises a [ValueError]. *)
Definition half_garbled : env :=
  world (Some "key") (Some "sk-test")
    (business_only
       (Ok (mk_response 200
              (Raise (mk_exn ValueError "Expecting value: line 1 column 1 (char 0)")))))
    (Ok tt).

End Sample.

(** ** Further vocabulary *)

(** The exception, if any, that the first three statements of the loop
    body meet for an outcome of [requests.get]: the call itself,
    [raise_for_status], then [json()]. *)
Definition request_failure (o : result response) : option exn :=
  match o with
  | Raise e => Some e
  | Ok resp =>
      match raise_for_status resp with
      | Raise e => Some e
      | Ok _ =>
          match json resp with
          | Raise e => Some e
          | Ok _ => None
          end
      end
  end.

(** The polls of the schedule recorded in a trace. *)
Fixpoint polls (t : trace) : nat :=
  match t with
  | [] => 0
  | EvRunPending :: t' => S (polls t')
  | _ :: t' => polls t'
  end.

(** The file writes attempted in a trace: name and content. *)
Fixpoint writes (t : trace) : list (string * string) :=
  match t with
  | [] => []
  | EvWrite f c :: t' => (f, c) :: writes t'
  | _ :: t' => writes t'
  end.

(** The texts handed to [print] in a trace. *)
Fixpoint printed (t : trace) : list string :=
  match t with
  | [] => []
  | EvPrint s :: t' => s :: printed t'
  | _ :: t' => printed t'
  end.

(** What the fallback summary reads of an article. *)
Definition headline (a : NewsArticle) : pyobj * pyobj * pyobj :=
  (title a, description a, source a).

(** The dates [datetime.now()] can return, as far as [strftime] is
    concerned: a four-digit year and fields within their ranges. *)
Definition valid_datetime (d : datetime) : Prop :=
  1000 <= dt_year d < 10 * 1000 /\ 1 <= dt_day d <= 31 /\ dt_hour d <= 23
  /\ dt_minute d <= 59 /\ dt_second d <= 59.

(** The aggregator [__init__] builds in the environment [E]. *)
Definition built_aggregator (E : env) : NewsAggregator :=
  {| news_api_key := getenv_NEWS_API_KEY E;
     openai_api_key := getenv_OPENAI_API_KEY E;
     client := match getenv_OPENAI_API_KEY E with Some k => k | None => "" end;
     news_base_url := "https://newsapi.org/v2";
     categories := ["business"; "technology"; "consumer goods"] |}.

(** What [__init__] logs. *)
Definition init_events (E : env) : trace :=
  if env_truthy (getenv_NEWS_API_KEY E) then []
  else [EvLog WARNING "NEWS_API_KEY not found. Using mock data mode."].

(** What [main] does between the constructor and the first run. *)
Definition startup_events : trace :=
  [EvSchedule 12;
   EvPrint "News Aggregator Starting...";
   EvPrint "Scheduling news updates every 4 hours";
   EvPrint "Press Ctrl+C to stop"].

(** What the handler of the interrupt does. *)
Definition shutdown_events : trace :=
  [EvPrint (nl ++ "News Aggregator stopped.");
   EvLog INFO "News Aggregator stopped by user"].

(** The events of the fetch and of the summarizer: requests, sleeps,
    LLM calls and records of errors.  They start no run, poll no
    schedule, write no file and print nothing. *)
Definition quiet_event (ev : event) : bool :=
  match ev with
  | EvHttpGet _ | EvSleep _ | EvChat _ | EvLog ERROR _ => true
  | _ => false
  end.

(** * Proofs *)

Ltac unfold_monad :=
  unfold bind, ret, raise, lift, emit, try_except, get_now, http_get, chat,
    write_file, print in *.

Lemma pipeline_runs_app (t u : trace) :
  pipeline_runs (t +++ u) = pipeline_runs t + pipeline_runs u.
Proof.
  induction t as [|ev t IH]; simpl; [reflexivity|].
  destruct ev; try exact IH.
  destruct level; try exact IH.
  rewrite IH. apply Nat.add_assoc.
Qed.

Lemma http_requests_app (t u : trace) :
  http_requests (t +++ u) = http_requests t +++ http_requests u.
Proof.
  induction t as [|ev t IH]; simpl; [reflexivity|].
  destruct ev; simpl; rewrite IH; reflexivity.
Qed.

Lemma chat_requests_app (t u : trace) :
  chat_requests (t +++ u) = chat_requests t +++ chat_requests u.
Proof.
  induction t as [|ev t IH]; simpl; [reflexivity|].
  destruct ev; simpl; rewrite IH; reflexivity.
Qed.

Lemma env_truthy_false (v : option string) :
  env_truthy v = false -> v = None \/ v = Some "".
Proof.
  destruct v as [s|]; simpl; [|now left].
  intros H. apply negb_false_iff, String.eqb_eq in H. subst. now right.
Qed.

(** ** Mock mode *)

(** C3. When the news-source credential is absent ([None] or empty),
    [fetch_news_articles] returns exactly the fixed mock sequence, and
    the trace is left as it was: no request is issued. *)
Theorem fetch_without_credential_is_mock
    (E : env) (self : NewsAggregator) (limit : Z) (t : trace) :
  env_truthy (news_api_key self) = false ->
  fetch_news_articles E self limit t = (Ok _get_mock_articles, t)
  /\ http_requests (snd (fetch_news_articles E self limit t))
     = http_requests t.
Proof.
  intros H. unfold fetch_news_articles.
  destruct (env_truthy_false _ H) as [-> | ->]; simpl; split; reflexivity.
Qed.

(** ** The summarizer on an empty list *)

(** C6. For the empty article list [generate_news_summary] returns the
    fixed message and leaves the trace untouched: no LLM call. *)
Theorem summary_of_no_articles
    (py_repr : pyobj -> string) (E : env) (t : trace) :
  generate_news_summary py_repr E [] t
  = (Ok "No news articles available at this time.", t)
  /\ chat_requests (snd (generate_news_summary py_repr E [] t))
     = chat_requests t.
Proof. split; reflexivity. Qed.

(** ** Saving *)

Lemma save_summary_ok (E : env) (summary : string) (t : trace) :
  file_write E t (summary_filename E t) summary = Ok tt ->
  save_summary E summary t
  = (Ok tt,
     t +++ [EvWrite (summary_filename E t) summary]
       +++ [EvLog INFO ("Summary saved to " ++ summary_filename E t)]).
Proof.
  intros H. unfold save_summary, summary_filename in *. unfold_monad.
  rewrite H. rewrite <- app_assoc. reflexivity.
Qed.

Lemma save_summary_caught (E : env) (summary : string) (t : trace) (e : exn) :
  file_write E t (summary_filename E t) summary = Raise e ->
  is_IOError e = true ->
  save_summary E summary t
  = (Ok tt,
     t +++ [EvWrite (summary_filename E t) summary]
       +++ [EvLog ERROR ("Error saving summary: " ++ exn_str e)]).
Proof.
  intros H He. unfold save_summary, summary_filename in *. unfold_monad.
  rewrite H, He. rewrite <- app_assoc. reflexivity.
Qed.

(** [save_summary] only adds to the trace. *)
Lemma save_summary_extends (E : env) (summary : string) (t : trace) :
  exists u, snd (save_summary E summary t) = t +++ u.
Proof.
  unfold save_summary. unfold_monad.
  destruct (file_write E t _ summary) as [[]|e]; simpl.
  - eexists. rewrite <- app_assoc. reflexivity.
  - destruct (is_IOError e); simpl; eexists;
      rewrite <- ?app_assoc; reflexivity.
Qed.

Lemma save_summary_total_on_io_errors
    (E : env) (summary : string) (t : trace) :
  (forall e, file_write E t (summary_filename E t) summary = Raise e ->
             is_IOError e = true) ->
  exists t', save_summary E summary t = (Ok tt, t').
Proof.
  intros Hio.
  destruct (file_write E t (summary_filename E t) summary) as [[]|e] eqn:Hw.
  - eexists. apply save_summary_ok. exact Hw.
  - eexists. apply (save_summary_caught _ _ _ e Hw). auto.
Qed.

(** C7, as the code has it.  Whatever the summary, when every failure
    of the file write is an I/O failure, [save_summary] returns
    normally; and when the write does fail, the last thing it did was
    to log the error. *)
Theorem save_summary_returns_normally
    (E : env) (summary : string) (t : trace) :
  (forall e, file_write E t (summary_filename E t) summary = Raise e ->
             is_IOError e = true) ->
  exists t',
    save_summary E summary t = (Ok tt, t')
    /\ (forall e,
          file_write E t (summary_filename E t) summary = Raise e ->
          t' = t +++ [EvWrite (summary_filename E t) summary;
                      EvLog ERROR ("Error saving summary: " ++ exn_str e)]).
Proof.
  intros Hio.
  destruct (file_write E t (summary_filename E t) summary) as [[]|e] eqn:Hw.
  - eexists. split; [apply save_summary_ok; exact Hw|].
    intros e He. discriminate He.
  - eexists. split; [apply (save_summary_caught _ _ _ e Hw); auto|].
    intros e' He'. injection He' as <-. reflexivity.
Qed.

(** C7 fails on a summary the file's codec cannot take: the
    [UnicodeEncodeError] of a lone surrogate is a [ValueError], not an
    [IOError], and leaves [save_summary] with nothing logged. *)
Lemma save_summary_raises_encode_error :
  save_summary Sample.surrogate_story ("digest" ++ Sample.lone_surrogate) []
  = (Raise Sample.encode_error,
     [EvWrite "news_summary_20240115_100000.txt"
        ("digest" ++ Sample.lone_surrogate)])
  /\ is_IOError Sample.encode_error = false.
Proof. split; reflexivity. Qed.

(** ** Startup *)

(** C8. When the LLM credential is missing ([None] or empty), [main]
    prints the two lines of the configuration error and returns: the
    trace gains nothing else, so no pipeline run is started and the
    loop is not entered; the constructor itself refuses such a
    configuration with a [ValueError]. *)
Theorem main_without_llm_credential
    (py_repr : pyobj -> string) (E : env) (t : trace) :
  env_truthy (getenv_OPENAI_API_KEY E) = false ->
  main py_repr E t = (Ok tt, t +++ missing_key_messages)
  /\ pipeline_runs (snd (main py_repr E t)) = pipeline_runs t
  /\ fst (NewsAggregator_init E t)
     = Raise (mk_exn ValueError
                "OPENAI_API_KEY environment variable is required").
Proof.
  intros H.
  assert (Hmain : main py_repr E t = (Ok tt, t +++ missing_key_messages)).
  { unfold main. rewrite H. simpl. unfold_monad.
    rewrite <- app_assoc. reflexivity. }
  split; [exact Hmain|]. split.
  - rewrite Hmain. simpl. rewrite pipeline_runs_app. simpl. lia.
  - unfold NewsAggregator_init. unfold_monad.
    destruct (env_truthy_false _ H) as [-> | ->];
      destruct (negb (env_truthy (getenv_NEWS_API_KEY E))); reflexivity.
Qed.

(** ** The fallback summary *)

Lemma append_assoc (a b c : string) : (a ++ b) ++ c = a ++ (b ++ c).
Proof. induction a as [|x a IH]; simpl; [reflexivity | now rewrite IH]. Qed.

Lemma append_empty_r (a : string) : a ++ "" = a.
Proof. induction a as [|x a IH]; simpl; [reflexivity | now rewrite IH]. Qed.

Lemma concat_empty_cons (x : string) (l : list string) :
  String.concat "" (x :: l) = x ++ String.concat "" l.
Proof.
  destruct l as [|y l]; simpl; [now rewrite append_empty_r | reflexivity].
Qed.

Lemma fold_left_append {A : Type} (f : A -> string) (l : list A) (init : string) :
  fold_left (fun acc x => acc ++ f x) l init
  = init ++ String.concat "" (map f l).
Proof.
  revert init. induction l as [|x l IH]; intros init.
  - simpl. now rewrite append_empty_r.
  - cbn [fold_left map]. rewrite IH, concat_empty_cons, append_assoc.
    reflexivity.
Qed.

Lemma fallback_summary_text
    (py_repr : pyobj -> string) (E : env) (articles : list NewsArticle)
    (t : trace) :
  _generate_fallback_summary py_repr E articles t
  = (Ok (fallback_text py_repr (now E t) articles), t).
Proof.
  unfold _generate_fallback_summary, fallback_text. unfold_monad.
  rewrite fold_left_append. rewrite !append_assoc. reflexivity.
Qed.



Lemma to_uint_not_nil (n : nat) : Nat.to_uint n <> Decimal.Nil.
Proof.
  intros H.
  pose proof (DecimalNat.Unsigned.to_of (Nat.to_uint n)) as Hn.
  rewrite DecimalNat.Unsigned.of_to, H in Hn. discriminate Hn.
Qed.

Lemma str_of_nat_inj (n m : nat) : str_of_nat n = str_of_nat m -> n = m.
Proof.
  unfold str_of_nat. intros H.
  apply (f_equal NilZero.uint_of_string) in H.
  rewrite !NilZero.usu in H by apply to_uint_not_nil.
  injection H as H. apply DecimalNat.Unsigned.to_uint_inj, H.
Qed.

Lemma year_has_four_digits (y : nat) :
  1000 <= y < 10 * 1000 -> String.length (str_of_nat y) = 4.
Proof.
  intros H.
  assert (Hall : forallb (fun y => Nat.eqb (String.length (str_of_nat y)) 4)
                   (seq 1000 (9 * 1000)) = true) by (vm_compute; reflexivity).
  rewrite forallb_forall in Hall. apply Nat.eqb_eq, Hall, in_seq. lia.
Qed.

Lemma pad2_has_two_digits (n : nat) :
  n < 100 -> String.length (pad2 n) = 2.
Proof.
  intros H.
  assert (Hall : forallb (fun n => Nat.eqb (String.length (pad2 n)) 2)
                   (seq 0 100) = true) by (vm_compute; reflexivity).
  rewrite forallb_forall in Hall. apply Nat.eqb_eq, Hall, in_seq. lia.
Qed.

Lemma pad2_inj (n m : nat) : n < 100 -> m < 100 -> pad2 n = pad2 m -> n = m.
Proof.
  intros Hn Hm H.
  assert (Hall :
    forallb (fun a => forallb (fun b => implb (String.eqb (pad2 a) (pad2 b))
                                          (Nat.eqb a b)) (seq 0 100))
      (seq 0 100) = true) by (vm_compute; reflexivity).
  rewrite forallb_forall in Hall.
  assert (Hin : forall k, k < 100 -> In k (seq 0 100))
    by (intros k Hk; apply in_seq; lia).
  specialize (Hall n (Hin n Hn)). rewrite forallb_forall in Hall.
  specialize (Hall m (Hin m Hm)).
  apply String.eqb_eq in H. rewrite H in Hall. apply Nat.eqb_eq, Hall.
Qed.

Lemma month_number_inj (m1 m2 : month) :
  month_number m1 = month_number m2 -> m1 = m2.
Proof. destruct m1, m2; simpl; intros H; try reflexivity; discriminate H. Qed.

Lemma month_number_small (m : month) : month_number m < 100.
Proof. destruct m; simpl; lia. Qed.

Lemma length_append (a b : string) :
  String.length (a ++ b) = String.length a + String.length b.
Proof. induction a as [|c a IH]; simpl; [reflexivity | now rewrite IH]. Qed.

(** Two concatenations whose first parts have the same length. *)
Lemma append_split (a1 a2 b1 b2 : string) :
  String.length a1 = String.length a2 ->
  a1 ++ b1 = a2 ++ b2 -> a1 = a2 /\ b1 = b2.
Proof.
  revert a2. induction a1 as [|c a1 IH]; intros [|c2 a2] Hlen H;
    simpl in *; try discriminate Hlen.
  - now split.
  - injection H as -> H. injection Hlen as Hlen.
    destruct (IH a2 Hlen H) as [-> ->]. now split.
Qed.




(** ** The filter of the fetch loop *)

Lemma has_title_and_description_dict (d : list (string * pyobj)) :
  has_title_and_description (PDict d) = Ok (both_present (PDict d)).
Proof.
  unfold has_title_and_description, both_present, field. simpl.
  destruct (py_truthy _); reflexivity.
Qed.

Lemma make_article_well_formed (d : list (string * pyobj)) :
  both_present (PDict d) = true ->
  has_other_keys d = true ->
  make_article (PDict d) = Ok (article_of (PDict d)).
Proof.
  unfold both_present, has_other_keys, make_article, article_of, field.
  intros Hb Ho. simpl.
  destruct (assoc "title" d) as [ti|]; [|discriminate Hb].
  destruct (assoc "description" d) as [de|];
    [|rewrite andb_false_r in Hb; discriminate Hb].
  destruct (assoc "url" d) as [ur|]; [|discriminate Ho].
  destruct (assoc "publishedAt" d) as [pu|]; [|discriminate Ho].
  destruct (assoc "source" d) as [[| | | | | |s]|]; try discriminate Ho.
  simpl. destruct (assoc "name" s) as [na|]; [reflexivity | discriminate Ho].
Qed.

Lemma collect_well_formed (items : list pyobj) (acc : list NewsArticle) :
  forallb entry_well_formed items = true ->
  collect items acc
  = Ok (acc +++ map article_of (filter both_present items)).
Proof.
  revert acc. induction items as [|a items IH]; intros acc H.
  - simpl. now rewrite app_nil_r.
  - cbn [forallb] in H. apply andb_true_iff in H as [Ha Hrest].
    destruct a as [| | | | | |d]; try discriminate Ha.
    cbn [collect filter]. rewrite has_title_and_description_dict.
    cbn [rbind]. unfold entry_well_formed in Ha.
    destruct (both_present (PDict d)) eqn:Hb.
    + rewrite (make_article_well_formed d Hb Ha). cbn [rbind map].
      rewrite (IH _ Hrest), <- app_assoc. reflexivity.
    + apply IH, Hrest.
Qed.

(** The Python-level operations of the loop raise [KeyError],
    [TypeError] or [AttributeError], never a [RequestException]. *)
Lemma py_get_not_request o k dflt e :
  py_get o k dflt = Raise e -> is_RequestException e = false.
Proof. destruct o; simpl; intros H; inversion H; reflexivity. Qed.

Lemma py_getitem_not_request o k e :
  py_getitem o k = Raise e -> is_RequestException e = false.
Proof.
  destruct o; simpl; try (intros H; inversion H; reflexivity).
  destruct (assoc k l); intros H; inversion H; reflexivity.
Qed.

Lemma py_iter_not_request o e :
  py_iter o = Raise e -> is_RequestException e = false.
Proof. destruct o; simpl; intros H; inversion H; reflexivity. Qed.

Lemma rbind_raise {A B : Type} (r : result A) (k : A -> result B) (e : exn) :
  rbind r k = Raise e ->
  r = Raise e \/ exists a, r = Ok a /\ k a = Raise e.
Proof.
  destruct r as [a|e']; simpl; intros H; [right; eauto|].
  left. injection H as ->. reflexivity.
Qed.

Lemma make_article_not_request a e :
  make_article a = Raise e -> is_RequestException e = false.
Proof.
  unfold make_article. intros H.
  repeat (apply rbind_raise in H as [H | [? [_ H]]];
          [eapply py_getitem_not_request; exact H|]).
  discriminate H.
Qed.

Lemma has_title_and_description_not_request a e :
  has_title_and_description a = Raise e -> is_RequestException e = false.
Proof.
  unfold has_title_and_description. intros H.
  apply rbind_raise in H as [H | [t [_ H]]];
    [eapply py_get_not_request; exact H|].
  destruct (py_truthy t); [|discriminate H].
  apply rbind_raise in H as [H | [? [_ H]]];
    [eapply py_get_not_request; exact H | discriminate H].
Qed.

Lemma collect_not_request (items : list pyobj) (acc : list NewsArticle) e :
  collect items acc = Raise e -> is_RequestException e = false.
Proof.
  revert acc. induction items as [|a items IH]; intros acc H;
    [discriminate H|].
  cbn [collect] in H.
  apply rbind_raise in H as [H | [keep [_ H]]];
    [eapply has_title_and_description_not_request; exact H|].
  destruct keep; [|eapply IH; exact H].
  apply rbind_raise in H as [H | [? [_ H]]];
    [eapply make_article_not_request; exact H | eapply IH; exact H].
Qed.

(** ** One category, then all of them *)

(** Case analysis along the body of [fetch_category]. *)
Ltac result_cases :=
  repeat match goal with
         | |- context [match requests_get ?E ?t ?r with _ => _ end] =>
             destruct (requests_get E t r) as [?resp|?e] eqn:?Hget; cbn
         | |- context [match raise_for_status ?r with _ => _ end] =>
             destruct (raise_for_status r) as [[]|?e] eqn:?Hstatus; cbn
         | |- context [match json ?r with _ => _ end] =>
             destruct (json r) as [?data|?e] eqn:?Hjson; cbn
         | |- context [match py_get ?o ?k ?d with _ => _ end] =>
             destruct (py_get o k d) as [?arts|?e] eqn:?Harts; cbn
         | |- context [match py_iter ?o with _ => _ end] =>
             destruct (py_iter o) as [?items|?e] eqn:?Hiter; cbn
         | |- context [match collect ?l ?a with _ => _ end] =>
             destruct (collect l a) as [?kept|?e] eqn:?Hcollect; cbn
         end.

Ltac fetch_category_cases :=
  unfold fetch_category; unfold_monad; cbn; result_cases.

Lemma body_items (data : pyobj) :
  body_well_formed data = true ->
  exists arts,
    py_get data "articles" (PList []) = Ok arts
    /\ py_iter arts = Ok (entries data)
    /\ forallb entry_well_formed (entries data) = true.
Proof.
  destruct data as [| | | | | |d]; try discriminate.
  unfold body_well_formed, entries, py_get.
  destruct (assoc "articles" d) as [arts|].
  - destruct (py_iter arts) as [l|] eqn:Hl; [|discriminate].
    intros H. exists arts. auto.
  - intros _. exists (PList []). auto.
Qed.

Lemma fetch_category_live
    (E : env) (self : NewsAggregator) (key : string) (limit : Z)
    (c : string) (acc kept : list NewsArticle) (t : trace) :
  good_response (requests_get E t (category_request self key limit c)) kept ->
  fetch_category E self key limit c acc t
  = (Ok (acc +++ kept), t +++ fetch_events self key limit [c]).
Proof.
  intros (resp & data & Hget & Hstatus & Hjson & Hwf & <-).
  destruct (body_items data Hwf) as (arts & Harts & Hiter & Hall).
  unfold fetch_category. unfold_monad.
  rewrite Hget, Hstatus, Hjson, Harts, Hiter.
  rewrite (collect_well_formed _ acc Hall).
  unfold kept_articles, fetch_events. simpl. rewrite <- app_assoc.
  reflexivity.
Qed.

Lemma fetch_categories_live
    (E : env) (self : NewsAggregator) (key : string) (limit : Z)
    (K : http_request -> list NewsArticle) (cats : list string) :
  (forall t r, good_response (requests_get E t r) (K r)) ->
  forall (acc : list NewsArticle) (t : trace),
    fetch_categories E self key limit cats acc t
    = (Ok (acc +++ flat_map (fun c => K (category_request self key limit c))
                     cats),
       t +++ fetch_events self key limit cats).
Proof.
  intros H. induction cats as [|c cats IH]; intros acc t.
  - simpl. unfold ret. now rewrite !app_nil_r.
  - cbn [fetch_categories]. unfold bind.
    rewrite (fetch_category_live E self key limit c acc _ t (H _ _)).
    rewrite IH. unfold fetch_events. cbn [flat_map].
    rewrite <- !app_assoc. reflexivity.
Qed.

(** Each turn issues exactly one request, whatever comes of it. *)
Lemma fetch_category_requests
    (E : env) (self : NewsAggregator) (key : string) (limit : Z)
    (c : string) (acc : list NewsArticle) (t : trace) :
  http_requests (snd (fetch_category E self key limit c acc t))
  = http_requests t +++ [category_request self key limit c].
Proof.
  fetch_category_cases;
    simpl; rewrite ?http_requests_app; simpl; rewrite ?app_nil_r;
    reflexivity.
Qed.

(** The requests of the loop are those of a prefix of the categories:
    the loop stops at the first exception. *)
Lemma fetch_categories_requests
    (E : env) (self : NewsAggregator) (key : string) (limit : Z)
    (cats : list string) :
  forall (acc : list NewsArticle) (t : trace),
  exists n,
    (cats <> [] -> 1 <= n)
    /\ http_requests (snd (fetch_categories E self key limit cats acc t))
       = http_requests t
         +++ firstn n (map (category_request self key limit) cats).
Proof.
  induction cats as [|c cats IH]; intros acc t.
  - exists 0. split; [congruence|]. simpl. now rewrite app_nil_r.
  - cbn [fetch_categories]. unfold bind.
    pose proof (fetch_category_requests E self key limit c acc t) as Hc.
    destruct (fetch_category E self key limit c acc t) as [[acc'|e] t'].
    + destruct (IH acc' t') as (n & _ & Hn). exists (S n).
      split; [lia|]. rewrite Hn. simpl in Hc. rewrite Hc.
      rewrite <- app_assoc. reflexivity.
    + exists 1. split; [lia|]. simpl in *. exact Hc.
Qed.

(** ** Which outcomes the [try] of the fetch absorbs *)

Lemma raise_for_status_request (resp : response) (e : exn) :
  raise_for_status resp = Raise e -> is_RequestException e = true.
Proof.
  unfold raise_for_status. destruct (_ && _); intros H; inversion H.
  reflexivity.
Qed.

Lemma fetch_category_handled
    (E : env) (self : NewsAggregator) (key : string) (limit : Z)
    (c : string) (acc : list NewsArticle) (t : trace) :
  http_handled (requests_get E t (category_request self key limit c)) = true ->
  only_raises is_RequestException
    (fst (fetch_category E self key limit c acc t)).
Proof.
  unfold http_handled. intros H.
  destruct (requests_get E t _) as [resp|e] eqn:Hget.
  - destruct (raise_for_status resp) as [[]|e] eqn:Hstatus.
    + destruct (json resp) as [data|e] eqn:Hjson.
      * rewrite (fetch_category_live E self key limit c acc
                   (kept_articles data) t); [exact I|].
        exists resp, data. rewrite Hget. auto.
      * unfold fetch_category. unfold_monad.
        rewrite Hget, Hstatus, Hjson. exact H.
    + unfold fetch_category. unfold_monad. rewrite Hget, Hstatus.
      exact (raise_for_status_request _ _ Hstatus).
  - unfold fetch_category. unfold_monad. rewrite Hget. exact H.
Qed.

Lemma fetch_categories_handled
    (E : env) (self : NewsAggregator) (key : string) (limit : Z)
    (cats : list string) :
  (forall t r, http_handled (requests_get E t r) = true) ->
  forall (acc : list NewsArticle) (t : trace),
    only_raises is_RequestException
      (fst (fetch_categories E self key limit cats acc t)).
Proof.
  intros H. induction cats as [|c cats IH]; intros acc t; [exact I|].
  cbn [fetch_categories]. unfold bind.
  pose proof (fetch_category_handled E self key limit c acc t (H _ _)) as Hc.
  destruct (fetch_category E self key limit c acc t) as [[acc'|e] t'].
  - apply IH.
  - exact Hc.
Qed.

Lemma fetch_category_no_request_exception
    (E : env) (self : NewsAggregator) (key : string) (limit : Z)
    (c : string) (acc : list NewsArticle) (t : trace) :
  no_request_exception
    (requests_get E t (category_request self key limit c)) = true ->
  only_raises (fun e => negb (is_RequestException e))
    (fst (fetch_category E self key limit c acc t)).
Proof.
  unfold no_request_exception. intros H.
  fetch_category_cases; try exact I; try exact H; try discriminate H;
    apply negb_true_iff.
  - eapply collect_not_request; eassumption.
  - eapply py_iter_not_request; eassumption.
  - eapply py_get_not_request; eassumption.
Qed.

Lemma fetch_categories_no_request_exception
    (E : env) (self : NewsAggregator) (key : string) (limit : Z)
    (cats : list string) :
  (forall t r, no_request_exception (requests_get E t r) = true) ->
  forall (acc : list NewsArticle) (t : trace),
    only_raises (fun e => negb (is_RequestException e))
      (fst (fetch_categories E self key limit cats acc t)).
Proof.
  intros H. induction cats as [|c cats IH]; intros acc t; [exact I|].
  cbn [fetch_categories]. unfold bind.
  pose proof (fetch_category_no_request_exception E self key limit c acc t
                (H _ _)) as Hc.
  destruct (fetch_category E self key limit c acc t) as [[acc'|e] t'].
  - apply IH.
  - exact Hc.
Qed.

Lemma fetch_with_credential
    (E : env) (self : NewsAggregator) (key : string) (limit : Z) :
  news_api_key self = Some key -> key <> "" ->
  fetch_news_articles E self limit
  = try_except (fetch_live E self key limit) is_RequestException
      (fun e =>
         emit (EvLog ERROR ("Error fetching news: " ++ exn_str e)) ;;
         ret _get_mock_articles).
Proof.
  intros Hk Hne. unfold fetch_news_articles, fetch_live. rewrite Hk.
  destruct (String.eqb key "") eqn:Heq; [|reflexivity].
  apply String.eqb_eq in Heq. contradiction.
Qed.

Lemma slice_to_length {A : Type} (n : Z) (l : list A) :
  (0 <= n)%Z -> (Z.of_nat (List.length (slice_to n l)) <= n)%Z.
Proof.
  intros H. unfold slice_to.
  destruct (Z.leb_spec 0 n) as [_|Hlt]; [|lia].
  pose proof (firstn_le_length (Z.to_nat n) l). lia.
Qed.

Lemma slice_to_all {A : Type} (n : Z) (l : list A) :
  (Z.of_nat (List.length l) <= n)%Z -> slice_to n l = l.
Proof.
  intros H. unfold slice_to.
  destruct (Z.leb_spec 0 n) as [_|Hlt]; [|lia].
  apply firstn_all2. lia.
Qed.

Lemma init_builds_sample (news : option string)
    (get : http_request -> result response) (write : result unit) (t : trace) :
  fst (NewsAggregator_init (Sample.world news (Some "sk-test") get write) t)
  = Ok (Sample.aggregator news).
Proof.
  unfold NewsAggregator_init. unfold_monad. simpl.
  destruct (negb (env_truthy news)); reflexivity.
Qed.

(** ** The bound on the result of a fetch *)

(** C2, as the code has it.  For every [limit >= 0], a list that
    [fetch_news_articles] returns is either the mock sequence, which the
    two mock paths return whole whatever the limit, or has at most
    [limit] entries. *)
Theorem fetch_at_most_limit_unless_mock
    (E : env) (self : NewsAggregator) (limit : Z) (t t' : trace)
    (l : list NewsArticle) :
  (0 <= limit)%Z ->
  fetch_news_articles E self limit t = (Ok l, t') ->
  l = _get_mock_articles \/ (Z.of_nat (List.length l) <= limit)%Z.
Proof.
  intros Hlimit. unfold fetch_news_articles.
  destruct (news_api_key self) as [key|];
    [|unfold ret; intros H; injection H as <- _; now left].
  destruct (String.eqb key "");
    [unfold ret; intros H; injection H as <- _; now left|].
  unfold try_except, bind.
  destruct (fetch_categories E self key limit (categories self) [] t)
    as [[articles|e] t1].
  - unfold ret. intros H. injection H as <- _. right.
    apply slice_to_length, Hlimit.
  - destruct (is_RequestException e); [|discriminate].
    unfold emit, ret. intros H. injection H as <- _. now left.
Qed.

(** C2 fails on both mock paths: with limit 1 the fetch returns the two
    mock articles, without a credential and after a transport failure
    alike. *)
Lemma fetch_exceeds_limit_in_mock_mode :
  fst (fetch_news_articles Sample.offline (Sample.aggregator None) 1 [])
  = Ok _get_mock_articles
  /\ fst (fetch_news_articles Sample.unreachable
            (Sample.aggregator (Some "key")) 1 [])
     = Ok _get_mock_articles
  /\ ~ (Z.of_nat (List.length _get_mock_articles) <= 1)%Z.
Proof.
  split; [reflexivity|]. split; [reflexivity|].
  simpl. lia.
Qed.

Lemma fetch_at_most_limit_unless_mock_witness :
  exists t',
    fetch_news_articles Sample.two_stories (Sample.aggregator (Some "key")) 1 []
    = (Ok [Sample.article_of_entry "A"], t')
    /\ ([Sample.article_of_entry "A"] = _get_mock_articles
        \/ (Z.of_nat (List.length [Sample.article_of_entry "A"]) <= 1)%Z).
Proof.
  eexists. split; [vm_compute; reflexivity|].
  eapply (fetch_at_most_limit_unless_mock Sample.two_stories
            (Sample.aggregator (Some "key")) 1 []); [lia|].
  vm_compute. reflexivity.
Defined.

(** ** What the fetch keeps *)

(** C5, as the code has it.  With a credential, when every request is
    answered by a response that passes [raise_for_status] and whose body
    is well formed (its entries are objects, and those with a title and
    a description also carry [url], [publishedAt] and [source.name]),
    the fetch collects exactly the entries that have both a title and a
    description, in upstream order, leaves the others out, and returns
    the first [limit] of the articles collected: all of them when they
    are no more than [limit]. *)
Theorem fetch_keeps_complete_entries
    (E : env) (self : NewsAggregator) (key : string) (limit : Z)
    (body : http_request -> pyobj) (t : trace) :
  news_api_key self = Some key -> key <> "" ->
  (forall t r, exists resp,
      requests_get E t r = Ok resp /\ raise_for_status resp = Ok tt
      /\ json resp = Ok (body r)) ->
  (forall r, body_well_formed (body r) = true) ->
  fetch_news_articles E self limit t
  = (Ok (slice_to limit (complete_articles self key limit body)),
     t +++ fetch_events self key limit (categories self))
  /\ ((Z.of_nat (List.length (complete_articles self key limit body))
       <= limit)%Z ->
      fst (fetch_news_articles E self limit t)
      = Ok (complete_articles self key limit body)).
Proof.
  intros Hk Hne Hget Hwf.
  assert (Hfetch :
    fetch_news_articles E self limit t
    = (Ok (slice_to limit (complete_articles self key limit body)),
       t +++ fetch_events self key limit (categories self))).
  { rewrite (fetch_with_credential E self key limit Hk Hne).
    unfold try_except, fetch_live, bind.
    rewrite (fetch_categories_live E self key limit
               (fun r => kept_articles (body r))).
    - reflexivity.
    - intros t0 r. destruct (Hget t0 r) as (resp & H1 & H2 & H3).
      exists resp, (body r). auto. }
  split; [exact Hfetch|].
  intros Hlen. rewrite Hfetch. simpl. now rewrite slice_to_all.
Qed.

(** C5 fails in two ways.  An entry with a title and a description but
    no [url] is not included: the fetch raises [KeyError].  And a
    complete entry beyond the limit is dropped: with limit 1 the entry
    ["B"] of the first response is left out. *)
Lemma fetch_drops_complete_entries :
  both_present Sample.bare_entry = true
  /\ fst (fetch_news_articles Sample.bare_story
            (Sample.aggregator (Some "key")) 20 [])
     = Raise (mk_exn KeyError "'url'")
  /\ both_present (Sample.complete_entry "B") = true
  /\ fst (fetch_news_articles Sample.two_stories
            (Sample.aggregator (Some "key")) 1 [])
     = Ok [Sample.article_of_entry "A"]
  /\ ~ In (Sample.article_of_entry "B") [Sample.article_of_entry "A"].
Proof.
  repeat split; try reflexivity.
  intros [H | []]. discriminate H.
Qed.

Lemma fetch_keeps_complete_entries_witness :
  fst (fetch_news_articles Sample.two_stories
         (Sample.aggregator (Some "key")) 20 [])
  = Ok [Sample.article_of_entry "A"; Sample.article_of_entry "B";
        Sample.article_of_entry "A"; Sample.article_of_entry "B";
        Sample.article_of_entry "A"; Sample.article_of_entry "B"].
Proof.
  refine (proj2 (fetch_keeps_complete_entries Sample.two_stories
                   (Sample.aggregator (Some "key")) "key" 20
                   (fun _ => Sample.body_of [Sample.complete_entry "A";
                                             Sample.complete_entry "B"]) []
                   _ _ _ _) _).
  - reflexivity.
  - discriminate.
  - intros t r. eexists. repeat split.
  - intros r. reflexivity.
  - vm_compute. discriminate.
Defined.

(** ** The page size of the requests *)

(** C10, as the code has it.  With a credential, the requests that
    [fetch_news_articles] issues are those of a prefix of the categories
    (at least the first one), in order, and each asks for
    [limit // len(self.categories)] articles; with the three categories
    of the program that is 0 for every limit from 0 to 2. *)
Theorem requests_ask_for_limit_div_categories
    (E : env) (self : NewsAggregator) (key : string) (limit : Z) (t : trace) :
  news_api_key self = Some key -> key <> "" ->
  (exists n,
      (categories self <> [] -> 1 <= n)
      /\ http_requests (snd (fetch_news_articles E self limit t))
         = http_requests t
           +++ firstn n (map (category_request self key limit)
                           (categories self)))
  /\ (forall c,
        req_pageSize (category_request self key limit c)
        = (limit / Z.of_nat (List.length (categories self)))%Z)
  /\ (List.length (categories self) = 3 -> (0 <= limit < 3)%Z ->
      forall c, req_pageSize (category_request self key limit c) = 0%Z).
Proof.
  intros Hk Hne. split; [|split].
  - rewrite (fetch_with_credential E self key limit Hk Hne).
    destruct (fetch_categories_requests E self key limit (categories self)
                [] t) as (n & Hn & Hreq).
    exists n. split; [exact Hn|].
    unfold try_except, fetch_live, bind.
    destruct (fetch_categories E self key limit (categories self) [] t)
      as [[articles|e] t1]; simpl in *; [exact Hreq|].
    destruct (is_RequestException e); simpl; [|exact Hreq].
    unfold emit, ret. simpl. rewrite http_requests_app, Hreq. simpl.
    now rewrite app_nil_r.
  - reflexivity.
  - intros Hlen Hlimit c. simpl. rewrite Hlen. simpl.
    apply Z.div_small. lia.
Qed.

(** C10 fails below zero: floor division sends limit -1 to page size
    -1, and the three requests go out with it. *)
Lemma negative_limit_asks_for_negative_page :
  map req_pageSize
    (http_requests
       (snd (fetch_news_articles Sample.two_stories
               (Sample.aggregator (Some "key")) (-1) [])))
  = [(-1)%Z; (-1)%Z; (-1)%Z]
  /\ (-1 < 3)%Z.
Proof. split; [reflexivity | lia]. Qed.

Lemma requests_ask_for_limit_div_categories_witness :
  map req_pageSize
    (http_requests
       (snd (fetch_news_articles Sample.two_stories
               (Sample.aggregator (Some "key")) 2 [])))
  = [0%Z; 0%Z; 0%Z]
  /\ req_pageSize
       (category_request (Sample.aggregator (Some "key")) "key" 2 "business")
     = 0%Z.
Proof.
  split; [reflexivity|].
  refine (proj2 (proj2 (requests_ask_for_limit_div_categories
                          Sample.two_stories (Sample.aggregator (Some "key"))
                          "key" 2 [] _ _)) _ _ "business").
  - reflexivity.
  - discriminate.
  - reflexivity.
  - lia.
Defined.

(** ** When the mock sequence is substituted *)

Lemma lacking_entries (l : list pyobj) :
  forallb (fun a => match a with
                    | PDict _ => negb (both_present a)
                    | _ => false
                    end) l = true ->
  forallb entry_well_formed l = true /\ filter both_present l = [].
Proof.
  induction l as [|a l IH]; [now split|].
  cbn [forallb filter]. intros H. apply andb_true_iff in H as [Ha Hl].
  destruct (IH Hl) as [IH1 IH2].
  destruct a as [| | | | | |d]; try discriminate Ha.
  apply negb_true_iff in Ha. unfold entry_well_formed. rewrite Ha.
  now split.
Qed.

Lemma all_lacking_body (data : pyobj) :
  all_lacking data = true ->
  body_well_formed data = true /\ kept_articles data = [].
Proof.
  destruct data as [| | | | | |d]; try discriminate.
  unfold all_lacking, body_well_formed, kept_articles, entries.
  destruct (assoc "articles" d) as [arts|]; [|now split].
  destruct (py_iter arts) as [l|]; [|discriminate].
  intros H. destruct (lacking_entries l H) as [H1 H2].
  rewrite H2. now split.
Qed.

Lemma flat_map_nil {A B : Type} (l : list A) :
  flat_map (fun _ : A => @nil B) l = [].
Proof. induction l as [|x l IH]; [reflexivity | exact IH]. Qed.

(** ** One run of the pipeline *)

(** [run_news_update], one stage after the other. *)
Lemma run_news_update_stages
    (py_repr : pyobj -> string) (E : env) (self : NewsAggregator) (t : trace) :
  run_news_update py_repr E self t
  = match fetch_news_articles E self 20 (t +++ run_started) with
    | (Raise e, t1) => (Raise e, t1)
    | (Ok articles, t1) =>
        match generate_news_summary py_repr E articles
                (t1 +++ run_fetched articles) with
        | (Raise e, t2) => (Raise e, t2)
        | (Ok summary, t2) =>
            match print_outcome E (t2 +++ [EvPrint rule_above]) summary with
            | Raise e => (Raise e, t2 +++ [EvPrint rule_above; EvPrint summary])
            | Ok _ =>
                match save_summary E summary (t2 +++ run_printed summary) with
                | (Raise e, t3) => (Raise e, t3)
                | (Ok _, t3) =>
                    (Ok tt, t3 +++ [EvLog INFO "News update completed"])
                end
            end
        end
    end.
Proof.
  unfold run_news_update, run_started, run_fetched, run_printed,
    print_outcome, rule_above.
  unfold bind, emit, print.
  destruct (fetch_news_articles E self 20 _) as [[articles|e] t1];
    [|reflexivity].
  destruct (generate_news_summary py_repr E articles _) as [[summary|e] t2];
    [|reflexivity].
  change (is_ascii (nl ++ repeat_str "=" 60)) with true.
  change (is_ascii (repeat_str "=" 60 ++ nl)) with true. cbv iota.
  destruct (if is_ascii summary then Ok tt else console_write E _ summary)
    as [[]|e]; rewrite <- ?app_assoc; simpl; [|reflexivity].
  destruct (save_summary E summary _) as [[[]|e] t3]; reflexivity.
Qed.

(** The summarizer never raises: its handler takes every exception and
    the fallback is pure string building. *)
Lemma generate_news_summary_returns
    (py_repr : pyobj -> string) (E : env) (articles : list NewsArticle)
    (t : trace) :
  exists summary t',
    generate_news_summary py_repr E articles t = (Ok summary, t').
Proof.
  destruct articles as [|a rest]; [eexists; eexists; reflexivity|].
  unfold generate_news_summary. unfold_monad.
  destruct (chat_create E t _) as [choices|e].
  - destruct (first_content choices) as [s|e]; simpl.
    + eexists; eexists; reflexivity.
    + rewrite fallback_summary_text. eexists; eexists; reflexivity.
  - simpl. rewrite fallback_summary_text. eexists; eexists; reflexivity.
Qed.

(** With handled responses the fetch returns a list. *)
Lemma fetch_news_articles_returns
    (E : env) (self : NewsAggregator) (limit : Z) (t : trace) :
  (forall t r, http_handled (requests_get E t r) = true) ->
  exists articles t',
    fetch_news_articles E self limit t = (Ok articles, t').
Proof.
  intros H. unfold fetch_news_articles.
  destruct (news_api_key self) as [key|]; [|eexists; eexists; reflexivity].
  destruct (String.eqb key ""); [eexists; eexists; reflexivity|].
  unfold try_except, bind.
  pose proof (fetch_categories_handled E self key limit (categories self) H
                [] t) as Hc.
  destruct (fetch_categories E self key limit (categories self) [] t)
    as [[articles|e] t1]; simpl in Hc.
  - eexists; eexists; reflexivity.
  - rewrite Hc. eexists; eexists; reflexivity.
Qed.

Lemma print_outcome_ok (E : env) (t : trace) (s : string) :
  (forall t s, console_write E t s = Ok tt) ->
  print_outcome E t s = Ok tt.
Proof. intros H. unfold print_outcome. destruct (is_ascii s); auto. Qed.

(** C1, as the code has it.  When every request is handled (it raises a
    [RequestException], from the call, the status check or the decoding,
    or it brings a well-formed body), the console takes the text of
    every [print] and the file write can only fail with an I/O error,
    one pipeline run returns normally, whatever the LLM call does. *)
Theorem run_news_update_completes
    (py_repr : pyobj -> string) (E : env) (self : NewsAggregator) (t : trace) :
  (forall t r, http_handled (requests_get E t r) = true) ->
  (forall t s, console_write E t s = Ok tt) ->
  (forall t f c e, file_write E t f c = Raise e -> is_IOError e = true) ->
  exists t', run_news_update py_repr E self t = (Ok tt, t').
Proof.
  intros Hhttp Hprint Hwrite. rewrite run_news_update_stages.
  destruct (fetch_news_articles_returns E self 20 (t +++ run_started) Hhttp)
    as (articles & t1 & ->).
  destruct (generate_news_summary_returns py_repr E articles
              (t1 +++ run_fetched articles)) as (summary & t2 & ->).
  rewrite (print_outcome_ok E _ summary Hprint).
  destruct (save_summary_total_on_io_errors E summary
              (t2 +++ run_printed summary)) as (t3 & ->).
  - intros e. apply Hwrite.
  - eexists. reflexivity.
Qed.

(** C1 fails in two ways.  A response entry that has a title and a
    description but no [url] raises a [KeyError], which is not a
    [RequestException]: it passes the handler of the fetch and leaves
    [run_news_update] and then [main].  And a well-formed entry whose
    title holds a lone surrogate reaches [print(summary)], which stands
    outside every [try]: its [UnicodeEncodeError] leaves the run too. *)
Lemma run_news_update_raises_key_error :
  fst (run_news_update Sample.repr Sample.bare_story
         (Sample.aggregator (Some "key")) [])
  = Raise (mk_exn KeyError "'url'")
  /\ fst (main Sample.repr Sample.bare_story []) = Raise (mk_exn KeyError "'url'")
  /\ entry_well_formed (Sample.complete_entry Sample.surrogate_headline) = true
  /\ fst (run_news_update Sample.repr Sample.surrogate_story
            (Sample.aggregator (Some "key")) [])
     = Raise Sample.encode_error.
Proof. repeat split. Qed.

Lemma run_news_update_completes_witness :
  exists t',
    run_news_update Sample.repr Sample.disk_full
      (Sample.aggregator (Some "key")) [] = (Ok tt, t').
Proof.
  apply (run_news_update_completes Sample.repr Sample.disk_full
           (Sample.aggregator (Some "key")) []).
  - intros t r. reflexivity.
  - intros t s. reflexivity.
  - intros t f c e H. injection H as <-. reflexivity.
Defined.

(** C9.  With a credential: when no request raises a
    [RequestException], the handler that substitutes the mock sequence
    is not entered, and the fetch is the body of its [try] block; and
    when every response is a success whose entries all lack a title or
    a description, the fetch returns the empty list, which is not the
    mock sequence, and the run goes on to log a count of 0 and to print
    the summarizer's message for an empty list. *)
Theorem mock_only_without_credential_or_on_request_exception
    (py_repr : pyobj -> string) (E : env) (self : NewsAggregator)
    (key : string) (t : trace) :
  news_api_key self = Some key -> key <> "" ->
  (forall limit,
      (forall t r, no_request_exception (requests_get E t r) = true) ->
      fetch_news_articles E self limit t = fetch_live E self key limit t)
  /\ ((forall t r, exists resp data,
          requests_get E t r = Ok resp /\ raise_for_status resp = Ok tt
          /\ json resp = Ok data /\ all_lacking data = true) ->
      (forall limit,
          fetch_news_articles E self limit t
          = (Ok [], t +++ fetch_events self key limit (categories self)))
      /\ [] <> _get_mock_articles
      /\ exists r rest,
          run_news_update py_repr E self t
          = (r, t +++ run_started
                  +++ fetch_events self key 20 (categories self)
                  +++ [EvLog INFO "Fetched 0 articles"]
                  +++ run_printed "No news articles available at this time."
                  +++ rest)).
Proof.
  intros Hk Hne. split.
  - intros limit Hno.
    rewrite (fetch_with_credential E self key limit Hk Hne).
    unfold try_except, fetch_live, bind.
    pose proof (fetch_categories_no_request_exception E self key limit
                  (categories self) Hno [] t) as Hc.
    destruct (fetch_categories E self key limit (categories self) [] t)
      as [[articles|e] t1]; simpl in Hc; [reflexivity|].
    apply negb_true_iff in Hc. now rewrite Hc.
  - intros Hlack.
    assert (Hfetch : forall limit t0,
      fetch_news_articles E self limit t0
      = (Ok [], t0 +++ fetch_events self key limit (categories self))).
    { intros limit t0.
      rewrite (fetch_with_credential E self key limit Hk Hne).
      unfold try_except, fetch_live, bind.
      rewrite (fetch_categories_live E self key limit (fun _ => [])).
      - rewrite flat_map_nil. simpl. unfold ret, slice_to.
        destruct (0 <=? limit)%Z; now rewrite firstn_nil.
      - intros t1 r. destruct (Hlack t1 r) as (resp & data & H1 & H2 & H3 & H4).
        destruct (all_lacking_body data H4) as [H5 H6].
        exists resp, data. auto. }
    split; [intros limit; apply Hfetch|]. split; [discriminate|].
    rewrite run_news_update_stages, Hfetch.
    unfold generate_news_summary, ret. cbv beta iota.
    match goal with
    | |- context [save_summary E ?s ?u] =>
        destruct (save_summary_extends E s u) as (w & Hw);
        destruct (save_summary E s u) as [[[]|e] t3]
    end; simpl in Hw; subst t3; eexists; eexists;
      unfold run_fetched; simpl List.length;
      rewrite <- !app_assoc; reflexivity.
Qed.

(** ** The theorems at sample configurations *)

Lemma fetch_without_credential_is_mock_witness :
  fetch_news_articles Sample.offline (Sample.aggregator None) 20 []
  = (Ok _get_mock_articles, []).
Proof.
  apply (fetch_without_credential_is_mock Sample.offline
           (Sample.aggregator None) 20 []).
  reflexivity.
Defined.


Lemma save_summary_returns_normally_witness :
  save_summary Sample.disk_full "digest" []
  = (Ok tt,
     [EvWrite "news_summary_20240115_100000.txt" "digest";
      EvLog ERROR "Error saving summary: [Errno 28] No space left on device"]).
Proof.
  destruct (save_summary_returns_normally Sample.disk_full "digest" [])
    as (t' & Hsave & Hlog).
  - intros e H. injection H as <-. reflexivity.
  - rewrite Hsave.
    rewrite (Hlog (mk_exn OSError "[Errno 28] No space left on device")
               eq_refl).
    reflexivity.
Defined.

Lemma main_without_llm_credential_witness :
  main Sample.repr Sample.unconfigured [] = (Ok tt, missing_key_messages).
Proof.
  apply (main_without_llm_credential Sample.repr Sample.unconfigured []).
  reflexivity.
Defined.

Lemma mock_only_without_credential_or_on_request_exception_witness :
  fetch_news_articles Sample.blank_story (Sample.aggregator (Some "key")) 20 []
  = fetch_live Sample.blank_story (Sample.aggregator (Some "key")) "key" 20 []
  /\ fst (fetch_news_articles Sample.blank_story
            (Sample.aggregator (Some "key")) 20 [])
     = Ok [].
Proof.
  destruct (mock_only_without_credential_or_on_request_exception
              Sample.repr Sample.blank_story (Sample.aggregator (Some "key"))
              "key" [] eq_refl ltac:(discriminate)) as [Hlive Hempty].
  split.
  - apply Hlive. intros t r. reflexivity.
  - destruct Hempty as [Hfetch _].
    + intros t r. eexists. eexists. repeat split.
    + rewrite Hfetch. reflexivity.
Defined.


(** ** Whole runs *)

(** Offline and with the LLM refusing the call, [main] runs the pipeline
    once and stops at the interrupt. *)
Example main_offline_runs_once :
  fst (main Sample.repr Sample.offline []) = Ok tt
  /\ pipeline_runs (snd (main Sample.repr Sample.offline [])) = 1
  /\ http_requests (snd (main Sample.repr Sample.offline [])) = [].
Proof. repeat split. Qed.

(** With live responses the run asks each category for [20 // 3 = 6]
    articles. *)
Example run_asks_six_per_category :
  map (fun r => (req_category r, req_pageSize r))
    (http_requests
       (snd (run_news_update Sample.repr Sample.two_stories
               (Sample.aggregator (Some "key")) [])))
  = [("business", 6%Z); ("technology", 6%Z); ("consumer goods", 6%Z)].
Proof. reflexivity. Qed.

(** A response with the status 503 sends the fetch to the mock
    sequence. *)
Example http_error_gives_mock :
  let E := Sample.world (Some "key") (Some "sk-test")
             (fun _ => Ok (mk_response 503 (Ok PNone))) (Ok tt) in
  fst (fetch_news_articles E (Sample.aggregator (Some "key")) 20 [])
  = Ok _get_mock_articles.
Proof. reflexivity. Qed.

(** * Further properties of the program *)

(** ** The constructor *)

(** X1. The constructor succeeds exactly when the LLM credential is
    set: it then returns the aggregator that holds the two credentials
    of the environment, the base URL and the three categories, and
    otherwise raises the [ValueError].  In both cases the only thing it
    does before is to log the mock-mode warning when the news credential
    is missing or empty: the warning is logged even when the constructor
    then raises. *)
Theorem init_outcome (E : env) (t : trace) :
  NewsAggregator_init E t
  = (if env_truthy (getenv_OPENAI_API_KEY E)
     then Ok (built_aggregator E)
     else Raise (mk_exn ValueError
                   "OPENAI_API_KEY environment variable is required"),
     t +++ init_events E)
  /\ (init_events E = [] <-> env_truthy (getenv_NEWS_API_KEY E) = true).
Proof.
  split.
  - unfold NewsAggregator_init, built_aggregator, init_events.
    unfold_monad.
    destruct (getenv_OPENAI_API_KEY E) as [k|]; simpl.
    + destruct (String.eqb k "");
        destruct (env_truthy (getenv_NEWS_API_KEY E)); simpl;
        rewrite ?app_nil_r; reflexivity.
    + destruct (env_truthy (getenv_NEWS_API_KEY E)); simpl;
        rewrite ?app_nil_r; reflexivity.
  - unfold init_events.
    destruct (env_truthy (getenv_NEWS_API_KEY E)); split;
      intros H'; try reflexivity; discriminate H'.
Qed.

(** ** Failures of a request *)

Lemma fetch_category_failure
    (E : env) (self : NewsAggregator) (key : string) (limit : Z)
    (c : string) (acc : list NewsArticle) (t : trace) (e : exn) :
  request_failure (requests_get E t (category_request self key limit c))
  = Some e ->
  fetch_category E self key limit c acc t
  = (Raise e, t +++ [EvHttpGet (category_request self key limit c)]).
Proof.
  unfold request_failure, fetch_category. unfold_monad.
  destruct (requests_get E t _) as [resp|e0].
  - destruct (raise_for_status resp) as [[]|e1].
    + destruct (json resp) as [data|e2]; [discriminate|].
      intros H. injection H as ->. reflexivity.
    + intros H. injection H as ->. reflexivity.
  - intros H. injection H as ->. reflexivity.
Qed.

Lemma fetch_events_app (self : NewsAggregator) (key : string) (limit : Z)
    (a b : list string) :
  fetch_events self key limit (a +++ b)
  = fetch_events self key limit a +++ fetch_events self key limit b.
Proof. unfold fetch_events. apply flat_map_app. Qed.

(** The loop over a run of categories whose requests are all answered
    well, followed by one whose request fails. *)
Lemma fetch_categories_stop
    (E : env) (self : NewsAggregator) (key : string) (limit : Z)
    (K : string -> list NewsArticle) (c : string) (post : list string)
    (e : exn) (pre : list string) :
  (forall t c', In c' pre ->
     good_response (requests_get E t (category_request self key limit c'))
       (K c')) ->
  (forall t, request_failure
               (requests_get E t (category_request self key limit c))
             = Some e) ->
  forall (acc : list NewsArticle) (t : trace),
    fetch_categories E self key limit (pre +++ c :: post) acc t
    = (Raise e,
       t +++ fetch_events self key limit pre
         +++ [EvHttpGet (category_request self key limit c)]).
Proof.
  intros Hgood Hfail. induction pre as [|c0 pre IH]; intros acc t.
  - cbn [app fetch_categories]. unfold bind.
    rewrite (fetch_category_failure E self key limit c acc t e (Hfail t)).
    reflexivity.
  - cbn [app fetch_categories]. unfold bind.
    rewrite (fetch_category_live E self key limit c0 acc (K c0) t);
      [|apply Hgood; now left].
    rewrite IH; [|intros t0 c' Hin; apply Hgood; now right].
    unfold fetch_events. cbn [flat_map]. rewrite <- !app_assoc.
    reflexivity.
Qed.

(** X2. A transport failure is all or nothing.  With a credential, when
    the requests of the first categories are answered well and the next
    one fails with a [RequestException] (from the call, the status check
    or the decoding), the fetch returns exactly the mock sequence: what
    the earlier categories brought is discarded, the error is logged
    with the text of the exception, and no request is sent for the
    categories that remain. *)
Theorem fetch_request_exception_gives_mock
    (E : env) (self : NewsAggregator) (key : string) (limit : Z)
    (K : string -> list NewsArticle) (pre : list string) (c : string)
    (post : list string) (e : exn) (t : trace) :
  news_api_key self = Some key -> key <> "" ->
  categories self = pre +++ c :: post ->
  (forall t c', In c' pre ->
     good_response (requests_get E t (category_request self key limit c'))
       (K c')) ->
  (forall t, request_failure
               (requests_get E t (category_request self key limit c))
             = Some e) ->
  is_RequestException e = true ->
  fetch_news_articles E self limit t
  = (Ok _get_mock_articles,
     t +++ fetch_events self key limit pre
       +++ [EvHttpGet (category_request self key limit c);
            EvLog ERROR ("Error fetching news: " ++ exn_str e)]).
Proof.
  intros Hk Hne Hcats Hgood Hfail He.
  rewrite (fetch_with_credential E self key limit Hk Hne).
  unfold try_except, fetch_live, bind. rewrite Hcats.
  rewrite (fetch_categories_stop E self key limit K c post e pre Hgood Hfail).
  rewrite He. unfold emit, ret. rewrite <- !app_assoc. reflexivity.
Qed.

(** X3. An exception of a request that is not a [RequestException]
    leaves [fetch_news_articles] as it is: nothing is logged, no mock
    sequence is substituted, and the later categories are not asked. *)
Theorem fetch_other_exception_propagates
    (E : env) (self : NewsAggregator) (key : string) (limit : Z)
    (K : string -> list NewsArticle) (pre : list string) (c : string)
    (post : list string) (e : exn) (t : trace) :
  news_api_key self = Some key -> key <> "" ->
  categories self = pre +++ c :: post ->
  (forall t c', In c' pre ->
     good_response (requests_get E t (category_request self key limit c'))
       (K c')) ->
  (forall t, request_failure
               (requests_get E t (category_request self key limit c))
             = Some e) ->
  is_RequestException e = false ->
  fetch_news_articles E self limit t
  = (Raise e,
     t +++ fetch_events self key limit pre
       +++ [EvHttpGet (category_request self key limit c)]).
Proof.
  intros Hk Hne Hcats Hgood Hfail He.
  rewrite (fetch_with_credential E self key limit Hk Hne).
  unfold try_except, fetch_live, bind. rewrite Hcats.
  rewrite (fetch_categories_stop E self key limit K c post e pre Hgood Hfail).
  rewrite He. reflexivity.
Qed.

Lemma fetch_raises_only_other_classes
    (E : env) (self : NewsAggregator) (limit : Z) (t : trace) (e : exn) :
  fst (fetch_news_articles E self limit t) = Raise e ->
  is_RequestException e = false.
Proof.
  unfold fetch_news_articles.
  destruct (news_api_key self) as [key|]; [|discriminate].
  destruct (String.eqb key ""); [discriminate|].
  unfold try_except, bind.
  destruct (fetch_categories E self key limit (categories self) [] t)
    as [[articles|e0] t1]; [discriminate|].
  destruct (is_RequestException e0) eqn:He0; [discriminate|].
  simpl. intros H. injection H as <-. exact He0.
Qed.

(** X4. Whatever the environment does, [fetch_news_articles] never
    raises a [RequestException]: the only exceptions that leave it are
    of other classes. *)
Theorem fetch_never_raises_request_exception
    (E : env) (self : NewsAggregator) (limit : Z) (t : trace) (e : exn) :
  fst (fetch_news_articles E self limit t) = Raise e ->
  is_RequestException e = false.
Proof. apply fetch_raises_only_other_classes. Qed.

Lemma good_sample_answer (items : list pyobj) (r : http_request) :
  body_well_formed (Sample.body_of items) = true ->
  good_response (Sample.answer items r) (kept_articles (Sample.body_of items)).
Proof.
  intros H. exists (mk_response 200 (Ok (Sample.body_of items))).
  exists (Sample.body_of items). repeat split. exact H.
Qed.

Lemma fetch_request_exception_gives_mock_witness :
  fetch_news_articles Sample.half_reachable (Sample.aggregator (Some "key"))
    20 []
  = (Ok _get_mock_articles,
     [EvHttpGet (category_request (Sample.aggregator (Some "key")) "key" 20
                   "business");
      EvSleep (1 # 10)%Q;
      EvHttpGet (category_request (Sample.aggregator (Some "key")) "key" 20
                   "technology");
      EvLog ERROR "Error fetching news: Read timed out."]).
Proof.
  apply (fetch_request_exception_gives_mock Sample.half_reachable
           (Sample.aggregator (Some "key")) "key" 20
           (fun _ => [Sample.article_of_entry "A"])
           ["business"] "technology" ["consumer goods"]
           (mk_exn RequestException "Read timed out.") []).
  - reflexivity.
  - discriminate.
  - reflexivity.
  - intros t c' [<- | []].
    apply (good_sample_answer [Sample.complete_entry "A"]). reflexivity.
  - intros t. reflexivity.
  - reflexivity.
Defined.

Lemma fetch_other_exception_propagates_witness :
  fetch_news_articles Sample.half_garbled (Sample.aggregator (Some "key"))
    20 []
  = (Raise (mk_exn ValueError "Expecting value: line 1 column 1 (char 0)"),
     [EvHttpGet (category_request (Sample.aggregator (Some "key")) "key" 20
                   "business");
      EvSleep (1 # 10)%Q;
      EvHttpGet (category_request (Sample.aggregator (Some "key")) "key" 20
                   "technology")]).
Proof.
  apply (fetch_other_exception_propagates Sample.half_garbled
           (Sample.aggregator (Some "key")) "key" 20
           (fun _ => [Sample.article_of_entry "A"])
           ["business"] "technology" ["consumer goods"]
           (mk_exn ValueError "Expecting value: line 1 column 1 (char 0)") []).
  - reflexivity.
  - discriminate.
  - reflexivity.
  - intros t c' [<- | []].
    apply (good_sample_answer [Sample.complete_entry "A"]). reflexivity.
  - intros t. reflexivity.
  - reflexivity.
Defined.

Lemma fetch_never_raises_request_exception_witness :
  is_RequestException (mk_exn KeyError "'url'") = false.
Proof.
  apply (fetch_never_raises_request_exception Sample.bare_story
           (Sample.aggregator (Some "key")) 20 []).
  reflexivity.
Defined.

(** ** Entries the loop cannot take *)

Lemma collect_app (good : list pyobj) (rest : list pyobj)
    (acc : list NewsArticle) :
  forallb entry_well_formed good = true ->
  collect (good +++ rest) acc
  = collect rest (acc +++ map article_of (filter both_present good)).
Proof.
  revert acc. induction good as [|a good IH]; intros acc H.
  - simpl. now rewrite app_nil_r.
  - cbn [forallb] in H. apply andb_true_iff in H as [Ha Hgood].
    destruct a as [| | | | | |d]; try discriminate Ha.
    cbn [app collect filter]. rewrite has_title_and_description_dict.
    cbn [rbind]. unfold entry_well_formed in Ha.
    destruct (both_present (PDict d)) eqn:Hb.
    + rewrite (make_article_well_formed d Hb Ha). cbn [rbind map].
      rewrite (IH _ Hgood), <- app_assoc. reflexivity.
    + apply IH, Hgood.
Qed.

(** X5. The loop over the entries has no partial result.  After any
    number of well-formed entries, an entry that is not an object makes
    it raise an [AttributeError], and an object with a title and a
    description but without the key [url] makes it raise
    [KeyError('url')]: whatever was collected before and whatever
    follows is lost. *)
Theorem collect_stops_at_bad_entry
    (good rest : list pyobj) (acc : list NewsArticle) :
  forallb entry_well_formed good = true ->
  (forall a, (forall d, a <> PDict d) ->
     exists e, collect (good +++ a :: rest) acc = Raise e
               /\ exn_cls e = AttributeError)
  /\ (forall d, both_present (PDict d) = true -> assoc "url" d = None ->
        collect (good +++ PDict d :: rest) acc
        = Raise (mk_exn KeyError "'url'")).
Proof.
  intros Hgood. split.
  - intros a Ha. rewrite (collect_app good _ acc Hgood).
    destruct a as [| | | | | |d]; try (eexists; split; reflexivity).
    exfalso. apply (Ha d). reflexivity.
  - intros d Hb Hurl. rewrite (collect_app good _ acc Hgood).
    cbn [collect]. rewrite has_title_and_description_dict, Hb.
    cbn [rbind]. unfold make_article, py_getitem.
    unfold both_present, field in Hb.
    destruct (assoc "title" d) as [ti|]; [|discriminate Hb].
    destruct (assoc "description" d) as [de|];
      [|rewrite andb_false_r in Hb; discriminate Hb].
    cbn [rbind]. rewrite Hurl. reflexivity.
Qed.

Lemma collect_stops_at_bad_entry_witness :
  collect [Sample.complete_entry "A"; Sample.bare_entry;
           Sample.complete_entry "B"] []
  = Raise (mk_exn KeyError "'url'").
Proof.
  apply (proj2 (collect_stops_at_bad_entry [Sample.complete_entry "A"]
                  [Sample.complete_entry "B"] [] eq_refl)
           [("title", PStr "Headline"); ("description", PStr "What happened.")]);
    reflexivity.
Defined.

(** ** The slice at the end of the fetch *)

Lemma slice_to_prefix {A : Type} (n : Z) (l : list A) :
  exists rest, l = slice_to n l +++ rest.
Proof.
  unfold slice_to. destruct (0 <=? n)%Z.
  - exists (skipn (Z.to_nat n) l). symmetry. apply firstn_skipn.
  - exists (skipn (List.length l - Z.to_nat (- n)) l). symmetry.
    apply firstn_skipn.
Qed.

Lemma slice_to_exact_length {A : Type} (n : Z) (l : list A) :
  Z.of_nat (List.length (slice_to n l))
  = (if (0 <=? n)%Z then Z.min n (Z.of_nat (List.length l))
     else Z.max 0 (Z.of_nat (List.length l) + n))%Z.
Proof.
  unfold slice_to. destruct (Z.leb_spec 0 n) as [H|H];
    rewrite length_firstn; lia.
Qed.

(** X6. The final slice keeps a prefix and never raises, whatever the
    sign of [limit].  When every request is answered well, the result is
    a prefix of the articles collected; it has [min(limit, n)] entries
    for a limit that is not negative and [max(0, n + limit)] for a
    negative one, which drops the last [-limit] articles. *)
Theorem fetch_result_is_prefix_of_collected
    (E : env) (self : NewsAggregator) (key : string) (limit : Z)
    (body : http_request -> pyobj) (t : trace) :
  news_api_key self = Some key -> key <> "" ->
  (forall t r, exists resp,
      requests_get E t r = Ok resp /\ raise_for_status resp = Ok tt
      /\ json resp = Ok (body r)) ->
  (forall r, body_well_formed (body r) = true) ->
  exists result rest,
    fst (fetch_news_articles E self limit t) = Ok result
    /\ complete_articles self key limit body = result +++ rest
    /\ Z.of_nat (List.length result)
       = (if (0 <=? limit)%Z
          then Z.min limit
                 (Z.of_nat (List.length (complete_articles self key limit body)))
          else Z.max 0
                 (Z.of_nat (List.length (complete_articles self key limit body))
                  + limit))%Z.
Proof.
  intros Hk Hne Hget Hwf.
  destruct (slice_to_prefix limit (complete_articles self key limit body))
    as (rest & Hrest).
  exists (slice_to limit (complete_articles self key limit body)), rest.
  split; [|split; [exact Hrest | apply slice_to_exact_length]].
  rewrite (fetch_with_credential E self key limit Hk Hne).
  unfold try_except, fetch_live, bind.
  rewrite (fetch_categories_live E self key limit
             (fun r => kept_articles (body r))).
  - reflexivity.
  - intros t0 r. destruct (Hget t0 r) as (resp & H1 & H2 & H3).
    exists resp, (body r). auto.
Qed.

(** With limit -4 the six articles collected come back as the first
    two. *)
Lemma fetch_result_is_prefix_of_collected_witness :
  fst (fetch_news_articles Sample.two_stories
         (Sample.aggregator (Some "key")) (-4) [])
  = Ok [Sample.article_of_entry "A"; Sample.article_of_entry "B"]
  /\ exists result rest,
       fst (fetch_news_articles Sample.two_stories
              (Sample.aggregator (Some "key")) (-4) [])
       = Ok result
       /\ complete_articles (Sample.aggregator (Some "key")) "key" (-4)
            (fun _ => Sample.body_of [Sample.complete_entry "A";
                                      Sample.complete_entry "B"])
          = result +++ rest
       /\ Z.of_nat (List.length result) = 2%Z.
Proof.
  split; [reflexivity|].
  apply (fetch_result_is_prefix_of_collected Sample.two_stories
           (Sample.aggregator (Some "key")) "key" (-4)
           (fun _ => Sample.body_of [Sample.complete_entry "A";
                                     Sample.complete_entry "B"]) []).
  - reflexivity.
  - discriminate.
  - intros t r. eexists. repeat split.
  - intros r. reflexivity.
Defined.

(** ** The summarizer *)

(** X7. When the LLM answers and the first choice has a text, the
    summary of a non-empty list is that text with the white space at
    both ends removed; one request is sent, nothing is logged and the
    fallback is not used.  The other choices are not read. *)
Theorem summary_is_first_choice_stripped
    (py_repr : pyobj -> string) (E : env) (articles : list NewsArticle)
    (t : trace) (s : string) (others : list (option string)) :
  articles <> [] ->
  chat_create E t (llm_request py_repr E articles t) = Ok (Some s :: others) ->
  generate_news_summary py_repr E articles t
  = (Ok (strip s), t +++ [EvChat (llm_request py_repr E articles t)]).
Proof.
  intros Hne Hc. destruct articles as [|a rest]; [contradiction|].
  unfold generate_news_summary. unfold_monad.
  unfold llm_request in Hc. rewrite Hc. reflexivity.
Qed.

(** The white space removed is Unicode's: here a no-break space
    before the text, an em space and a line feed after it. *)
Lemma summary_is_first_choice_stripped_witness :
  fst (generate_news_summary Sample.repr Sample.talkative
         _get_mock_articles [])
  = Ok "TOP 10 NEWS".
Proof.
  rewrite (summary_is_first_choice_stripped Sample.repr Sample.talkative
             _get_mock_articles []
             (bytes [194; 160] ++ " TOP 10 NEWS" ++ bytes [226; 128; 131]
              ++ nl) [None]).
  - reflexivity.
  - discriminate.
  - reflexivity.
Defined.

(** X8. [generate_news_summary] never raises, whatever the LLM call
    does, and it sends one request exactly for a non-empty list and none
    for the empty one: a failed call is not tried again. *)
Theorem summary_never_raises_one_call
    (py_repr : pyobj -> string) (E : env) (articles : list NewsArticle)
    (t : trace) :
  exists summary u,
    generate_news_summary py_repr E articles t = (Ok summary, t +++ u)
    /\ chat_requests u
       = match articles with
         | [] => []
         | _ => [llm_request py_repr E articles t]
         end.
Proof.
  destruct articles as [|a rest].
  - exists "No news articles available at this time.", [].
    split; [|reflexivity]. simpl. unfold ret. now rewrite app_nil_r.
  - unfold generate_news_summary, llm_request. unfold_monad.
    destruct (chat_create E t _) as [choices|e].
    + destruct (first_content choices) as [s|e]; simpl.
      * eexists. eexists. split; reflexivity.
      * rewrite fallback_summary_text. eexists. eexists.
        split; [rewrite <- app_assoc; reflexivity | reflexivity].
    + simpl. rewrite fallback_summary_text. eexists. eexists.
      split; [rewrite <- app_assoc; reflexivity | reflexivity].
Qed.

Lemma enumerate_map {A B : Type} (f : A -> B) (l : list A) (start : nat) :
  enumerate (map f l) start
  = map (fun ia => (fst ia, f (snd ia))) (enumerate l start).
Proof.
  revert start. induction l as [|x l IH]; intros start; simpl;
    [reflexivity | now rewrite IH].
Qed.

(** X9. The fallback summary reads the title, the description and the
    source of the first ten articles and nothing else: two lists that
    agree on these give the same text, whatever their URLs, their
    publication dates and their articles from the eleventh on. *)
Theorem fallback_reads_headlines_of_first_ten
    (py_repr : pyobj -> string) (E : env) (a b : list NewsArticle)
    (t : trace) :
  map headline (firstn 10 a) = map headline (firstn 10 b) ->
  _generate_fallback_summary py_repr E a t
  = _generate_fallback_summary py_repr E b t.
Proof.
  intros H. rewrite !fallback_summary_text. unfold fallback_text.
  do 2 f_equal.
  set (entry := fun ih : nat * (pyobj * pyobj * pyobj) =>
         str_of_nat (fst ih) ++ ". " ++ py_str py_repr (fst (fst (snd ih)))
         ++ nl ++ "   " ++ py_str py_repr (snd (fst (snd ih))) ++ nl
         ++ "   Source: " ++ py_str py_repr (snd (snd ih)) ++ nl ++ nl).
  assert (Hentry : forall l,
    map (fallback_entry py_repr) (enumerate l 1)
    = map entry (enumerate (map headline l) 1)).
  { intros l. rewrite enumerate_map, map_map. reflexivity. }
  rewrite !Hentry, H. reflexivity.
Qed.

Lemma fallback_reads_headlines_of_first_ten_witness :
  _generate_fallback_summary Sample.repr Sample.offline
    [Sample.article_of_entry "A"] []
  = _generate_fallback_summary Sample.repr Sample.offline
      [mk_NewsArticle (PStr "A") (PStr "What happened.") PNone (PInt 7)
         (PStr "Wire")] [].
Proof.
  apply (fallback_reads_headlines_of_first_ten Sample.repr Sample.offline).
  reflexivity.
Defined.

(** ** The name of the summary file *)

Lemma strftime_stamp_inj (d1 d2 : datetime) :
  valid_datetime d1 -> valid_datetime d2 ->
  strftime_stamp d1 = strftime_stamp d2 -> d1 = d2.
Proof.
  intros (Hy1 & Hd1 & Hh1 & Hm1 & Hs1) (Hy2 & Hd2 & Hh2 & Hm2 & Hs2).
  destruct d1 as [y1 mo1 da1 h1 mi1 s1], d2 as [y2 mo2 da2 h2 mi2 s2].
  unfold strftime_stamp. simpl in *. intros H.
  pose proof (month_number_small mo1). pose proof (month_number_small mo2).
  apply append_split in H as [Hy H];
    [|rewrite !year_has_four_digits; auto].
  apply append_split in H as [Hmo H];
    [|rewrite !pad2_has_two_digits; auto].
  apply append_split in H as [Hda H];
    [|rewrite !pad2_has_two_digits; auto; lia].
  injection H as H.
  apply append_split in H as [Hh H];
    [|rewrite !pad2_has_two_digits; auto; lia].
  apply append_split in H as [Hmi Hs];
    [|rewrite !pad2_has_two_digits; auto; lia].
  apply str_of_nat_inj in Hy.
  apply pad2_inj in Hmo; auto. apply month_number_inj in Hmo.
  apply pad2_inj in Hda; try lia. apply pad2_inj in Hh; try lia.
  apply pad2_inj in Hmi; try lia. apply pad2_inj in Hs; try lia.
  subst. reflexivity.
Qed.

Lemma strftime_stamp_length (d : datetime) :
  valid_datetime d -> String.length (strftime_stamp d) = 15.
Proof.
  intros (Hy & Hd & Hh & Hm & Hs). unfold strftime_stamp.
  pose proof (month_number_small (dt_month d)).
  rewrite !length_append, year_has_four_digits by exact Hy.
  rewrite !pad2_has_two_digits by lia. reflexivity.
Qed.

(** X10. The name of the summary file determines the second it was
    written in: for valid dates, two calls of [save_summary] open the
    same file only when the clock shows the same date and time, to the
    second; and every name has the same length, 32 characters. *)
Theorem summary_filename_determines_second
    (E : env) (t1 t2 : trace) :
  valid_datetime (now E t1) -> valid_datetime (now E t2) ->
  (summary_filename E t1 = summary_filename E t2 -> now E t1 = now E t2)
  /\ String.length (summary_filename E t1) = 32.
Proof.
  intros H1 H2. unfold summary_filename. split.
  - intros H.
    apply append_split in H as [_ H]; [|reflexivity].
    apply append_split in H as [H _];
      [|rewrite !strftime_stamp_length; auto].
    apply strftime_stamp_inj; assumption.
  - rewrite !length_append, strftime_stamp_length by exact H1. reflexivity.
Qed.

Lemma summary_filename_determines_second_witness :
  String.length (summary_filename Sample.offline []) = 32.
Proof.
  apply (summary_filename_determines_second Sample.offline [] []);
    unfold valid_datetime; simpl; lia.
Defined.

(** ** What each stage adds to the trace *)

Lemma polls_app (t u : trace) : polls (t +++ u) = polls t + polls u.
Proof.
  induction t as [|ev t IH]; simpl; [reflexivity|].
  destruct ev; simpl; rewrite IH; reflexivity.
Qed.

Lemma writes_app (t u : trace) : writes (t +++ u) = writes t +++ writes u.
Proof.
  induction t as [|ev t IH]; simpl; [reflexivity|].
  destruct ev; simpl; rewrite IH; reflexivity.
Qed.

Lemma printed_app (t u : trace) : printed (t +++ u) = printed t +++ printed u.
Proof.
  induction t as [|ev t IH]; simpl; [reflexivity|].
  destruct ev; simpl; rewrite IH; reflexivity.
Qed.

Lemma quiet_trace (u : trace) :
  forallb quiet_event u = true ->
  pipeline_runs u = 0 /\ polls u = 0 /\ writes u = [] /\ printed u = [].
Proof.
  induction u as [|ev u IH]; [now repeat split|].
  cbn [forallb]. intros H. apply andb_true_iff in H as [Hev Hu].
  destruct (IH Hu) as (H1 & H2 & H3 & H4).
  destruct ev as [[] msg| | | | | | |]; try discriminate Hev; simpl; auto.
Qed.

Lemma quiet_app (u v : trace) :
  forallb quiet_event u = true -> forallb quiet_event v = true ->
  forallb quiet_event (u +++ v) = true.
Proof. intros Hu Hv. rewrite forallb_app, Hu, Hv. reflexivity. Qed.

Lemma fetch_category_quiet
    (E : env) (self : NewsAggregator) (key : string) (limit : Z)
    (c : string) (acc : list NewsArticle) (t : trace) :
  exists u,
    snd (fetch_category E self key limit c acc t) = t +++ u
    /\ forallb quiet_event u = true.
Proof.
  fetch_category_cases; eexists;
    (split; [rewrite <- ?app_assoc; reflexivity | reflexivity]).
Qed.

Lemma fetch_categories_quiet
    (E : env) (self : NewsAggregator) (key : string) (limit : Z)
    (cats : list string) :
  forall (acc : list NewsArticle) (t : trace),
  exists u,
    snd (fetch_categories E self key limit cats acc t) = t +++ u
    /\ forallb quiet_event u = true.
Proof.
  induction cats as [|c cats IH]; intros acc t.
  - exists []. simpl. now rewrite app_nil_r.
  - cbn [fetch_categories]. unfold bind.
    destruct (fetch_category_quiet E self key limit c acc t) as (u & Hu & Hq).
    destruct (fetch_category E self key limit c acc t) as [[acc'|e] t'];
      simpl in Hu; subst t'.
    + destruct (IH acc' (t +++ u)) as (v & Hv & Hqv).
      exists (u +++ v). rewrite Hv, <- app_assoc.
      split; [reflexivity | now apply quiet_app].
    + exists u. now split.
Qed.

Lemma fetch_news_articles_quiet
    (E : env) (self : NewsAggregator) (limit : Z) (t : trace) :
  exists u,
    snd (fetch_news_articles E self limit t) = t +++ u
    /\ forallb quiet_event u = true.
Proof.
  unfold fetch_news_articles.
  destruct (news_api_key self) as [key|];
    [|exists []; simpl; now rewrite app_nil_r].
  destruct (String.eqb key "");
    [exists []; simpl; now rewrite app_nil_r|].
  unfold try_except, bind.
  destruct (fetch_categories_quiet E self key limit (categories self) [] t)
    as (u & Hu & Hq).
  destruct (fetch_categories E self key limit (categories self) [] t)
    as [[articles|e] t1]; simpl in Hu; subst t1.
  - exists u. now split.
  - destruct (is_RequestException e); [|exists u; now split].
    exists (u +++ [EvLog ERROR ("Error fetching news: " ++ exn_str e)]).
    unfold emit, ret. simpl. rewrite <- app_assoc.
    split; [reflexivity | now apply quiet_app].
Qed.

Lemma generate_news_summary_quiet
    (py_repr : pyobj -> string) (E : env) (articles : list NewsArticle)
    (t : trace) :
  exists summary u,
    generate_news_summary py_repr E articles t = (Ok summary, t +++ u)
    /\ forallb quiet_event u = true.
Proof.
  destruct articles as [|a rest].
  - eexists. exists []. simpl. unfold ret. now rewrite app_nil_r.
  - unfold generate_news_summary. unfold_monad.
    destruct (chat_create E t _) as [choices|e].
    + destruct (first_content choices) as [s|e]; simpl.
      * eexists. eexists. split; reflexivity.
      * rewrite fallback_summary_text. eexists. eexists.
        split; [rewrite <- app_assoc; reflexivity | reflexivity].
    + simpl. rewrite fallback_summary_text. eexists. eexists.
      split; [rewrite <- app_assoc; reflexivity | reflexivity].
Qed.

(** [save_summary] attempts one write, of the text it was given, and
    adds one log record. *)
Lemma save_summary_events (E : env) (summary : string) (t : trace) :
  exists r lvl msg,
    save_summary E summary t
    = (r, t +++ EvWrite (summary_filename E t) summary
            :: match r with
               | Ok _ => [EvLog lvl msg]
               | Raise _ => []
               end)
    /\ (lvl = INFO -> String.eqb msg "Starting news update..." = false).
Proof.
  unfold save_summary, summary_filename. unfold_monad.
  destruct (file_write E t _ summary) as [[]|e].
  - exists (Ok tt), INFO. eexists. simpl. rewrite <- app_assoc.
    split; [reflexivity|]. intros _. reflexivity.
  - destruct (is_IOError e).
    + exists (Ok tt), ERROR. eexists. simpl. rewrite <- app_assoc.
      split; [reflexivity|]. discriminate.
    + exists (Raise e), ERROR, "". simpl. split; [reflexivity|]. discriminate.
Qed.

(** One run, seen through the four projections of the trace. *)
Lemma run_news_update_events
    (py_repr : pyobj -> string) (E : env) (self : NewsAggregator) (t : trace) :
  exists r u,
    run_news_update py_repr E self t = (r, t +++ u)
    /\ pipeline_runs u = 1 /\ polls u = 0
    /\ ((printed u = [] /\ writes u = []
         /\ exists e, r = Raise e /\ is_RequestException e = false)
        \/ (exists s e,
               printed u = [rule_above; s] /\ writes u = []
               /\ r = Raise e /\ is_ascii s = false)
        \/ exists f s,
             printed u = [rule_above; s; rule_below]
             /\ writes u = [(f, s)]).
Proof.
  rewrite run_news_update_stages.
  destruct (fetch_news_articles_quiet E self 20 (t +++ run_started))
    as (u1 & Hu1 & Hq1).
  pose proof (fetch_raises_only_other_classes E self 20
                (t +++ run_started)) as Hre.
  destruct (fetch_news_articles E self 20 (t +++ run_started))
    as [[articles|e] t1]; simpl in Hu1; subst t1.
  - match goal with
    | |- context [generate_news_summary py_repr E articles ?t0] =>
        destruct (generate_news_summary_quiet py_repr E articles t0)
          as (s & u2 & -> & Hq2)
    end.
    destruct (quiet_trace u1 Hq1) as (A1 & A2 & A3 & A4).
    destruct (quiet_trace u2 Hq2) as (B1 & B2 & B3 & B4).
    destruct (print_outcome E _ s) as [[]|e] eqn:Hprint.
    + match goal with
      | |- context [save_summary E s ?t0] =>
          destruct (save_summary_events E s t0)
            as (r & lvl & msg & -> & Hmsg)
      end.
      set (f := summary_filename E _).
      destruct r as [[]|e].
      * exists (Ok tt). eexists.
        split; [rewrite <- !app_assoc; reflexivity|].
        rewrite !pipeline_runs_app, !polls_app, !printed_app, !writes_app.
        rewrite A1, A2, A3, A4, B1, B2, B3, B4.
        split; [|split; [reflexivity|]].
        -- simpl. destruct lvl; try reflexivity. now rewrite Hmsg.
        -- right. right. exists f, s. split; reflexivity.
      * exists (Raise e). eexists.
        split; [rewrite <- !app_assoc; reflexivity|].
        rewrite !pipeline_runs_app, !polls_app, !printed_app, !writes_app.
        rewrite A1, A2, A3, A4, B1, B2, B3, B4.
        split; [reflexivity|]. split; [reflexivity|].
        right. right. exists f, s. split; reflexivity.
    + exists (Raise e). eexists.
      split; [rewrite <- !app_assoc; reflexivity|].
      rewrite !pipeline_runs_app, !polls_app, !printed_app, !writes_app.
      rewrite A1, A2, A3, A4, B1, B2, B3, B4.
      split; [reflexivity|]. split; [reflexivity|].
      right. left. exists s, e. repeat split.
      unfold print_outcome in Hprint.
      destruct (is_ascii s); [discriminate Hprint | reflexivity].
  - exists (Raise e), (run_started +++ u1).
    destruct (quiet_trace u1 Hq1) as (A1 & A2 & A3 & A4).
    rewrite <- app_assoc. split; [reflexivity|].
    rewrite pipeline_runs_app, polls_app, printed_app, writes_app.
    rewrite A1, A2, A3, A4. repeat split. left. repeat split.
    exists e. split; [reflexivity | apply Hre; reflexivity].
Qed.

(** ** Saving, once more *)

(** X11. [save_summary] attempts exactly one write, of the text it was
    given and under the name built from the clock, whatever comes of
    it; and an exception of the write that is not an [IOError] leaves
    [save_summary] without a log record. *)
Theorem save_summary_one_attempt (E : env) (summary : string) (t : trace) :
  writes (snd (save_summary E summary t))
  = writes t +++ [(summary_filename E t, summary)]
  /\ (forall e,
        file_write E t (summary_filename E t) summary = Raise e ->
        is_IOError e = false ->
        save_summary E summary t
        = (Raise e, t +++ [EvWrite (summary_filename E t) summary])).
Proof.
  split.
  - destruct (save_summary_events E summary t) as (r & lvl & msg & -> & _).
    simpl. rewrite writes_app. simpl. destruct r; reflexivity.
  - intros e Hw He. unfold save_summary, summary_filename in *.
    unfold_monad. rewrite Hw, He. reflexivity.
Qed.

Lemma save_summary_one_attempt_witness :
  save_summary Sample.unencodable "digest" []
  = (Raise (mk_exn ValueError "surrogates not allowed"),
     [EvWrite "news_summary_20240115_100000.txt" "digest"]).
Proof.
  exact (proj2 (save_summary_one_attempt Sample.unencodable "digest" [])
           (mk_exn ValueError "surrogates not allowed") eq_refl eq_refl).
Defined.

(** ** Whole runs, in general *)


(** ** The scheduler *)

Lemma NewsAggregator_init_ok (E : env) (t : trace) :
  env_truthy (getenv_OPENAI_API_KEY E) = true ->
  NewsAggregator_init E t = (Ok (built_aggregator E), t +++ init_events E).
Proof.
  intros H. unfold NewsAggregator_init, built_aggregator, init_events.
  unfold_monad.
  destruct (getenv_OPENAI_API_KEY E) as [k|]; [|discriminate H].
  simpl in H. apply negb_true_iff in H. rewrite H.
  destruct (env_truthy (getenv_NEWS_API_KEY E)); simpl;
    rewrite ?app_nil_r; reflexivity.
Qed.

(** [main] up to the first run. *)
Lemma main_startup (py_repr : pyobj -> string) (E : env) (t : trace) :
  env_truthy (getenv_OPENAI_API_KEY E) = true ->
  main py_repr E t
  = match run_news_update py_repr E (built_aggregator E)
            (t +++ init_events E +++ startup_events) with
    | (Ok _, t1) =>
        match interrupt E with
        | BeforeLoop => (Raise keyboard_interrupt, t1)
        | InSleep n => main_loop py_repr E (built_aggregator E) n t1
        end
    | (Raise e, t1) => (Raise e, t1)
    end.
Proof.
  intros H. unfold main. rewrite H. cbn [negb]. unfold bind at 1.
  rewrite (NewsAggregator_init_ok E t H).
  unfold bind, emit, print, raise, startup_events. simpl.
  rewrite <- !app_assoc. simpl.
  destruct (run_news_update py_repr E _ _) as [[[]|e] t1];
    [destruct (interrupt E)|]; reflexivity.
Qed.

Lemma run_news_update_ok
    (py_repr : pyobj -> string) (E : env) (self : NewsAggregator) (t : trace) :
  (forall t r, http_handled (requests_get E t r) = true) ->
  (forall t s, console_write E t s = Ok tt) ->
  (forall t f c e, file_write E t f c = Raise e -> is_IOError e = true) ->
  exists u,
    run_news_update py_repr E self t = (Ok tt, t +++ u)
    /\ pipeline_runs u = 1 /\ polls u = 0.
Proof.
  intros Hhttp Hprint Hwrite.
  destruct (run_news_update_events py_repr E self t)
    as (r & u & Hrun & Hruns & Hpolls & _).
  exists u. split; [|now split]. rewrite Hrun. f_equal.
  rewrite run_news_update_stages in Hrun.
  destruct (fetch_news_articles_returns E self 20 (t +++ run_started) Hhttp)
    as (articles & t1 & Hf). rewrite Hf in Hrun.
  destruct (generate_news_summary_returns py_repr E articles
              (t1 +++ run_fetched articles)) as (s & t2 & Hg).
  rewrite Hg in Hrun. rewrite (print_outcome_ok E _ s Hprint) in Hrun.
  destruct (save_summary_total_on_io_errors E s (t2 +++ run_printed s))
    as (t3 & Hs); [intros e; apply Hwrite|].
  rewrite Hs in Hrun. injection Hrun as <- _. reflexivity.
Qed.

Lemma main_loop_ok
    (py_repr : pyobj -> string) (E : env) (self : NewsAggregator) :
  (forall t r, http_handled (requests_get E t r) = true) ->
  (forall t s, console_write E t s = Ok tt) ->
  (forall t f c e, file_write E t f c = Raise e -> is_IOError e = true) ->
  forall (n : nat) (t : trace),
  exists u,
    main_loop py_repr E self n t = (Ok tt, t +++ u +++ shutdown_events)
    /\ polls u = S n /\ pipeline_runs u <= S n.
Proof.
  intros Hhttp Hprint Hwrite.
  assert (Hpoll : forall t, exists v,
    run_pending py_repr E self t = (Ok tt, t +++ v)
    /\ polls v = 1 /\ pipeline_runs v <= 1).
  { intros t. unfold run_pending. destruct (job_due E t).
    - destruct (run_news_update_ok py_repr E self (t +++ [EvRunPending])
                  Hhttp Hprint Hwrite) as (u & Hu & Hr & Hp).
      exists (EvRunPending :: u). rewrite Hu, <- app_assoc.
      split; [reflexivity|]. simpl. lia.
    - exists [EvRunPending]. split; [reflexivity|]. simpl. lia. }
  induction n as [|n IH]; intros t.
  - cbn [main_loop]. unfold bind, emit, print.
    destruct (Hpoll t) as (v & -> & Hp & Hr).
    exists (v +++ [EvSleep 60%Q]). unfold shutdown_events.
    rewrite <- !app_assoc. split; [reflexivity|].
    rewrite polls_app, pipeline_runs_app. simpl. lia.
  - cbn [main_loop]. unfold bind, emit.
    destruct (Hpoll t) as (v & -> & Hp & Hr).
    destruct (IH ((t +++ v) +++ [EvSleep 60%Q])) as (u & -> & Hpu & Hru).
    exists (v +++ [EvSleep 60%Q] +++ u). rewrite <- !app_assoc.
    split; [reflexivity|].
    rewrite !polls_app, !pipeline_runs_app. simpl. lia.
Qed.

(** X13. When the LLM credential is set, the responses are handled,
    the console takes the text of every [print], the file write can
    only fail with an I/O error and the operator's interrupt arrives in
    a sleep of the loop, after [n] completed ones, [main] returns
    normally: after the constructor and the startup messages it runs
    the pipeline at once, polls the schedule [n + 1] times, runs the
    pipeline at most once per poll, and ends with the shutdown message
    and its log record. *)
Theorem main_runs_until_interrupt
    (py_repr : pyobj -> string) (E : env) (t : trace) (n : nat) :
  env_truthy (getenv_OPENAI_API_KEY E) = true ->
  (forall t r, http_handled (requests_get E t r) = true) ->
  (forall t s, console_write E t s = Ok tt) ->
  (forall t f c e, file_write E t f c = Raise e -> is_IOError e = true) ->
  interrupt E = InSleep n ->
  exists u,
    main py_repr E t
    = (Ok tt, t +++ init_events E +++ startup_events +++ u
                +++ shutdown_events)
    /\ polls u = S n
    /\ 1 <= pipeline_runs u <= S (S n).
Proof.
  intros Hkey Hhttp Hprint Hwrite Hint.
  rewrite (main_startup py_repr E t Hkey), Hint.
  destruct (run_news_update_ok py_repr E (built_aggregator E)
              (t +++ init_events E +++ startup_events) Hhttp Hprint Hwrite)
    as (u1 & -> & Hr1 & Hp1).
  destruct (main_loop_ok py_repr E (built_aggregator E) Hhttp Hprint Hwrite
              n ((t +++ init_events E +++ startup_events) +++ u1))
    as (u2 & -> & Hp2 & Hr2).
  exists (u1 +++ u2). rewrite <- !app_assoc. split; [reflexivity|].
  rewrite polls_app, pipeline_runs_app. lia.
Qed.

Lemma main_runs_until_interrupt_witness :
  exists u,
    main Sample.repr Sample.disk_full []
    = (Ok tt, [] +++ init_events Sample.disk_full +++ startup_events +++ u
                 +++ shutdown_events)
    /\ polls u = 1 /\ 1 <= pipeline_runs u <= 2.
Proof.
  apply (main_runs_until_interrupt Sample.repr Sample.disk_full [] 0).
  - reflexivity.
  - intros t r. reflexivity.
  - intros t s. reflexivity.
  - intros t f c e H. injection H as <-. reflexivity.
  - reflexivity.
Defined.

(** X14. Nothing in [main] catches an exception of the first run: when
    it raises, [main] raises the same exception and the schedule is
    never polled. *)
Theorem main_stops_when_first_run_raises
    (py_repr : pyobj -> string) (E : env) (t t' : trace) (e : exn) :
  env_truthy (getenv_OPENAI_API_KEY E) = true ->
  run_news_update py_repr E (built_aggregator E)
    (t +++ init_events E +++ startup_events) = (Raise e, t') ->
  main py_repr E t = (Raise e, t') /\ polls t' = polls t.
Proof.
  intros Hkey Hrun. rewrite (main_startup py_repr E t Hkey), Hrun.
  split; [reflexivity|].
  destruct (run_news_update_events py_repr E (built_aggregator E)
              (t +++ init_events E +++ startup_events))
    as (r & u & Hu & _ & Hpolls & _).
  rewrite Hrun in Hu. injection Hu as <- ->.
  assert (Hinit : polls (init_events E) = 0).
  { unfold init_events.
    destruct (env_truthy (getenv_NEWS_API_KEY E)); reflexivity. }
  rewrite !polls_app, Hpolls, Hinit. simpl. lia.
Qed.

Lemma main_stops_when_first_run_raises_witness :
  fst (main Sample.repr Sample.unencodable [])
  = Raise (mk_exn ValueError "surrogates not allowed")
  /\ polls (snd (main Sample.repr Sample.unencodable [])) = 0.
Proof.
  destruct (main_stops_when_first_run_raises Sample.repr Sample.unencodable
              [] (snd (run_news_update Sample.repr Sample.unencodable
                         (built_aggregator Sample.unencodable)
                         ([] +++ init_events Sample.unencodable
                             +++ startup_events)))
              (mk_exn ValueError "surrogates not allowed") eq_refl eq_refl)
    as [Hmain Hpolls].
  rewrite Hmain. split; [reflexivity | exact Hpolls].
Defined.

Lemma main_loop_constant_schedule
    (py_repr : pyobj -> string) (E : env) (self : NewsAggregator) (due : bool) :
  (forall t r, http_handled (requests_get E t r) = true) ->
  (forall t s, console_write E t s = Ok tt) ->
  (forall t f c e, file_write E t f c = Raise e -> is_IOError e = true) ->
  (forall t, job_due E t = due) ->
  forall (n : nat) (t : trace),
  exists u,
    main_loop py_repr E self n t = (Ok tt, t +++ u +++ shutdown_events)
    /\ pipeline_runs u = if due then S n else 0.
Proof.
  intros Hhttp Hprint Hwrite Hdue.
  assert (Hpoll : forall t, exists v,
    run_pending py_repr E self t = (Ok tt, t +++ v)
    /\ pipeline_runs v = if due then 1 else 0).
  { intros t. unfold run_pending. rewrite Hdue. destruct due.
    - destruct (run_news_update_ok py_repr E self (t +++ [EvRunPending])
                  Hhttp Hprint Hwrite) as (u & Hu & Hr & Hp).
      exists (EvRunPending :: u). rewrite Hu, <- app_assoc.
      split; [reflexivity | exact Hr].
    - exists [EvRunPending]. split; reflexivity. }
  induction n as [|n IH]; intros t.
  - cbn [main_loop]. unfold bind, emit, print.
    destruct (Hpoll t) as (v & -> & Hr).
    exists (v +++ [EvSleep 60%Q]). unfold shutdown_events.
    rewrite <- !app_assoc. split; [reflexivity|].
    rewrite pipeline_runs_app, Hr. destruct due; reflexivity.
  - cbn [main_loop]. unfold bind, emit.
    destruct (Hpoll t) as (v & -> & Hr).
    destruct (IH ((t +++ v) +++ [EvSleep 60%Q])) as (u & -> & Hru).
    exists (v +++ [EvSleep 60%Q] +++ u). rewrite <- !app_assoc.
    split; [reflexivity|].
    rewrite !pipeline_runs_app, Hr, Hru. destruct due; simpl; lia.
Qed.

(** X15. How often [main] runs the pipeline.  Under the conditions of
    a normal return (handled responses, a console that takes every
    text, a write that fails with an I/O error only, the interrupt in
    the sleep that follows [n] completed ones), when the job is never
    due before the interrupt the pipeline runs once, at startup; when
    it is due at every poll it runs once at startup and once per poll,
    [n + 2] times. *)
Theorem main_run_count
    (py_repr : pyobj -> string) (E : env) (t : trace) (due : bool) (n : nat) :
  env_truthy (getenv_OPENAI_API_KEY E) = true ->
  (forall t r, http_handled (requests_get E t r) = true) ->
  (forall t s, console_write E t s = Ok tt) ->
  (forall t f c e, file_write E t f c = Raise e -> is_IOError e = true) ->
  interrupt E = InSleep n ->
  (forall t, job_due E t = due) ->
  fst (main py_repr E t) = Ok tt
  /\ pipeline_runs (snd (main py_repr E t))
     = pipeline_runs t + if due then S (S n) else 1.
Proof.
  intros Hkey Hhttp Hprint Hwrite Hint Hdue.
  rewrite (main_startup py_repr E t Hkey), Hint.
  destruct (run_news_update_ok py_repr E (built_aggregator E)
              (t +++ init_events E +++ startup_events) Hhttp Hprint Hwrite)
    as (u1 & -> & Hr1 & Hp1).
  destruct (main_loop_constant_schedule py_repr E (built_aggregator E) due
              Hhttp Hprint Hwrite Hdue n
              ((t +++ init_events E +++ startup_events) +++ u1))
    as (u2 & -> & Hr2).
  split; [reflexivity|]. cbn [snd].
  assert (Hinit : pipeline_runs (init_events E) = 0).
  { unfold init_events.
    destruct (env_truthy (getenv_NEWS_API_KEY E)); reflexivity. }
  rewrite !pipeline_runs_app, Hr1, Hr2, Hinit.
  destruct due; simpl; lia.
Qed.

Lemma main_run_count_witness :
  fst (main Sample.repr Sample.busy []) = Ok tt
  /\ pipeline_runs (snd (main Sample.repr Sample.busy [])) = 4.
Proof.
  refine (main_run_count Sample.repr Sample.busy [] true 2 eq_refl _ _ _
            eq_refl _).
  - intros t r. reflexivity.
  - intros t s. reflexivity.
  - intros t f c e H. discriminate H.
  - intros t. reflexivity.
Defined.

(** X17. The first run stands outside the [try] of [main].  When it
    returns and the operator's interrupt arrives before the loop is
    entered, [main] ends with the [KeyboardInterrupt]: nothing more is
    done, so the schedule is never polled and the handler of the
    interrupt does not run. *)
Theorem main_interrupted_before_loop
    (py_repr : pyobj -> string) (E : env) (t t' : trace) :
  env_truthy (getenv_OPENAI_API_KEY E) = true ->
  interrupt E = BeforeLoop ->
  run_news_update py_repr E (built_aggregator E)
    (t +++ init_events E +++ startup_events) = (Ok tt, t') ->
  main py_repr E t = (Raise keyboard_interrupt, t')
  /\ polls t' = polls t.
Proof.
  intros Hkey Hint Hrun. rewrite (main_startup py_repr E t Hkey), Hrun, Hint.
  split; [reflexivity|].
  destruct (run_news_update_events py_repr E (built_aggregator E)
              (t +++ init_events E +++ startup_events))
    as (r & u & Hu & _ & Hpolls & _).
  rewrite Hrun in Hu. injection Hu as <- ->.
  assert (Hinit : polls (init_events E) = 0).
  { unfold init_events.
    destruct (env_truthy (getenv_NEWS_API_KEY E)); reflexivity. }
  rewrite !polls_app, Hpolls, Hinit. simpl. lia.
Qed.

Lemma main_interrupted_before_loop_witness :
  fst (main Sample.repr Sample.impatient []) = Raise keyboard_interrupt
  /\ polls (snd (main Sample.repr Sample.impatient [])) = 0.
Proof.
  destruct (main_interrupted_before_loop Sample.repr Sample.impatient []
              (snd (run_news_update Sample.repr Sample.impatient
                      (built_aggregator Sample.impatient)
                      ([] +++ init_events Sample.impatient
                          +++ startup_events)))
              eq_refl eq_refl eq_refl)
    as [Hmain Hpolls].
  rewrite Hmain. split; [reflexivity | exact Hpolls].
Defined.

(** ** The shape of a response body *)

(** X16. The key [articles] of a body.  With a credential, when every
    response is an object without the key, each category brings
    nothing and the fetch returns the empty list after one request per
    category; when the first response has the key with the value
    [null], the loop over it raises a [TypeError], which leaves
    [fetch_news_articles] after that one request. *)
Theorem fetch_articles_key_absent_or_null
    (E : env) (self : NewsAggregator) (key : string) (limit : Z) (t : trace) :
  news_api_key self = Some key -> key <> "" ->
  ((forall t r, exists resp d,
       requests_get E t r = Ok resp /\ raise_for_status resp = Ok tt
       /\ json resp = Ok (PDict d) /\ assoc "articles" d = None) ->
   fetch_news_articles E self limit t
   = (Ok [], t +++ fetch_events self key limit (categories self)))
  /\ (forall c post,
        categories self = c :: post ->
        (exists resp d,
            requests_get E t (category_request self key limit c) = Ok resp
            /\ raise_for_status resp = Ok tt
            /\ json resp = Ok (PDict d)
            /\ assoc "articles" d = Some PNone) ->
        exists e,
          fetch_news_articles E self limit t
          = (Raise e, t +++ [EvHttpGet (category_request self key limit c)])
          /\ exn_cls e = TypeError).
Proof.
  intros Hk Hne. split.
  - intros Habsent.
    rewrite (fetch_with_credential E self key limit Hk Hne).
    unfold try_except, fetch_live, bind.
    rewrite (fetch_categories_live E self key limit (fun _ => [])).
    + rewrite flat_map_nil. simpl. unfold ret, slice_to.
      destruct (0 <=? limit)%Z; now rewrite firstn_nil.
    + intros t1 r. destruct (Habsent t1 r) as (resp & d & H1 & H2 & H3 & H4).
      exists resp, (PDict d). repeat split; try assumption.
      * unfold body_well_formed. now rewrite H4.
      * unfold kept_articles, entries. now rewrite H4.
  - intros c post Hcats (resp & d & H1 & H2 & H3 & H4).
    rewrite (fetch_with_credential E self key limit Hk Hne).
    unfold try_except, fetch_live, bind. rewrite Hcats.
    cbn [fetch_categories]. unfold bind, fetch_category. unfold_monad.
    rewrite H1, H2, H3. simpl. rewrite H4. simpl.
    eexists. split; reflexivity.
Qed.

Lemma fetch_articles_key_absent_or_null_witness :
  exists e,
    fetch_news_articles Sample.null_articles (Sample.aggregator (Some "key"))
      20 []
    = (Raise e,
       [] +++ [EvHttpGet (category_request (Sample.aggregator (Some "key"))
                            "key" 20 "business")])
    /\ exn_cls e = TypeError.
Proof.
  refine (proj2 (fetch_articles_key_absent_or_null Sample.null_articles
                   (Sample.aggregator (Some "key")) "key" 20 [] eq_refl _)
            "business" ["technology"; "consumer goods"] eq_refl _).
  - discriminate.
  - eexists. eexists. repeat split.
Defined.

(** ** White space *)

(** [strip] removes Unicode white space at both ends and nothing
    inside; a text of white space only becomes empty, and a byte that
    merely ends like a space character stays. *)
Example strip_unicode_white_space :
  strip (bytes [194; 160] ++ " a" ++ bytes [226; 128; 131] ++ "b "
         ++ bytes [227; 128; 128] ++ nl)
  = "a" ++ bytes [226; 128; 131] ++ "b"
  /\ strip (" " ++ bytes [194; 133] ++ nl) = ""
  /\ strip (bytes [195; 160]) = bytes [195; 160]
  /\ chars ("a" ++ bytes [195; 160] ++ "b")
     = [PStr "a"; PStr (bytes [195; 160]); PStr "b"].
Proof. repeat split. Qed.
